(** * Gitea/GitHub MCP connector: a shallow embedding of [src/connector.js]

    The connector registers seven tools with an MCP server.  Every tool
    handler maps its arguments to at most one [curl] command line, runs it
    with [execSync], parses the output with [JSON.parse] and formats a
    tool result.

    The embedding keeps the JavaScript data as it is: dynamically typed
    values, strings as byte sequences (the UTF-8 encoding of the JavaScript
    string), numbers restricted to the safe integers.  The effects of the program
    (running a shell command, parsing its output, raising and catching
    exceptions) are threaded through a small monad over an explicit
    environment. *)

From Stdlib Require Import String Ascii List ZArith Lia Bool.
From Stdlib Require Import DecimalString.
Import ListNotations.
Local Open Scope list_scope.
Local Open Scope string_scope.
#[local] Set Warnings "-register-all".

(** ** Characters and strings *)

Module Str.

Definition dquote : ascii := ascii_of_nat 34.
Definition backslash : ascii := ascii_of_nat 92.
Definition newline : ascii := ascii_of_nat 10.

Definition chr (c : ascii) : string := String c EmptyString.

Definition q : string := chr dquote.
Definition nl : string := chr newline.

(** [Array.prototype.join] on an array of strings. *)
Fixpoint join (sep : string) (l : list string) : string :=
  match l with
  | [] => ""
  | [x] => x
  | x :: rest => x ++ sep ++ join sep rest
  end.

Fixpoint is_prefix (p s : string) : bool :=
  match p, s with
  | EmptyString, _ => true
  | String a p', String b s' => Ascii.eqb a b && is_prefix p' s'
  | String _ _, EmptyString => false
  end.

(** [String.prototype.includes]. *)
Fixpoint includes (s sub : string) : bool :=
  is_prefix sub s ||
  match s with
  | EmptyString => false
  | String _ s' => includes s' sub
  end.

(** Decimal rendering of an integer, as [String(n)] prints a safe integer
    (one of magnitude at most 2^53 - 1, which a number holds exactly and
    prints in plain decimal notation). *)
Definition of_Z (n : Z) : string := NilZero.string_of_int (Z.to_int n).

Definition of_nat (n : nat) : string := of_Z (Z.of_nat n).

Definition hex_digit (upper : bool) (n : nat) : ascii :=
  if Nat.ltb n 10 then ascii_of_nat (48 + n)
  else ascii_of_nat ((if upper then 55 else 87) + n).

Definition hex2 (upper : bool) (c : ascii) : string :=
  let n := nat_of_ascii c in
  String (hex_digit upper (Nat.div n 16))
    (String (hex_digit upper (Nat.modulo n 16)) EmptyString).

(** White space, as [String.prototype.trim] strips it: the code points of
    WhiteSpace and LineTerminator, each in its UTF-8 encoding.  One byte:
    U+0009 to U+000D and U+0020. *)
Definition is_space (c : ascii) : bool :=
  let n := nat_of_ascii c in
  Nat.eqb n 32 || (Nat.leb 9 n && Nat.leb n 13).

(** Two bytes: U+00A0, the no-break space. *)
Definition is_space2 (a b : ascii) : bool :=
  Nat.eqb (nat_of_ascii a) 194 && Nat.eqb (nat_of_ascii b) 160.

(** Three bytes: U+1680, U+2000 to U+200A, U+2028, U+2029, U+202F,
    U+205F, U+3000 and U+FEFF. *)
Definition is_space3 (a b c : ascii) : bool :=
  let x := nat_of_ascii a in
  let y := nat_of_ascii b in
  let z := nat_of_ascii c in
  (Nat.eqb x 225 && (Nat.eqb y 154 && Nat.eqb z 128))
  || (Nat.eqb x 226
      && ((Nat.eqb y 128
           && ((Nat.leb 128 z && Nat.leb z 138)
               || Nat.eqb z 168 || Nat.eqb z 169 || Nat.eqb z 175))
          || (Nat.eqb y 129 && Nat.eqb z 159)))
  || (Nat.eqb x 227 && (Nat.eqb y 128 && Nat.eqb z 128))
  || (Nat.eqb x 239 && (Nat.eqb y 187 && Nat.eqb z 191)).

Fixpoint trim_left (s : string) : string :=
  match s with
  | EmptyString => EmptyString
  | String a s1 =>
      if is_space a then trim_left s1
      else
        match s1 with
        | EmptyString => s
        | String b s2 =>
            if is_space2 a b then trim_left s2
            else
              match s2 with
              | EmptyString => s
              | String c s3 => if is_space3 a b c then trim_left s3 else s
              end
        end
  end.

(** The string holds white space only. *)
Definition blank (s : string) : bool := String.eqb (trim_left s) "".

(** The string without the white space it ends with. *)
Fixpoint trim_right (s : string) : string :=
  match s with
  | EmptyString => EmptyString
  | String c s' => if blank s then EmptyString else String c (trim_right s')
  end.

Definition trim (s : string) : string := trim_right (trim_left s).

End Str.

Import Str.

(** ** JavaScript values *)

(** An object is its list of own properties in enumeration order.  Numbers
    are the safe integers, of magnitude at most 2^53 - 1; fractions and
    larger numbers are outside the model. *)
Inductive value : Type :=
| JUndefined
| JNull
| JBool (b : bool)
| JNum (n : Z)
| JStr (s : string)
| JArr (items : list value)
| JObj (props : list (string * value)).

(** ToBoolean. *)
Definition truthy (v : value) : bool :=
  match v with
  | JUndefined | JNull => false
  | JBool b => b
  | JNum n => negb (Z.eqb n 0)
  | JStr s => negb (String.eqb s "")
  | JArr _ | JObj _ => true
  end.

(** [a || b] *)
Definition js_or (a b : value) : value := if truthy a then a else b.


(** ToString, as a template literal [`${v}`] and [String(v)] apply it. *)
Fixpoint to_string (v : value) : string :=
  match v with
  | JUndefined => "undefined"
  | JNull => "null"
  | JBool true => "true"
  | JBool false => "false"
  | JNum n => of_Z n
  | JStr s => s
  | JArr items =>
      join ","
        (map (fun x => match x with
                       | JUndefined | JNull => ""
                       | _ => to_string x
                       end) items)
  | JObj _ => "[object Object]"
  end.

Fixpoint lookup (k : string) (props : list (string * value)) : value :=
  match props with
  | [] => JUndefined
  | (k', v) :: rest => if String.eqb k k' then v else lookup k rest
  end.

(** ** JSON.stringify *)

Module JSON.

Definition quote_char (c : ascii) : string :=
  let n := nat_of_ascii c in
  if Nat.eqb n 34 then String backslash q
  else if Nat.eqb n 92 then String backslash (chr backslash)
  else if Nat.eqb n 8 then String backslash "b"
  else if Nat.eqb n 12 then String backslash "f"
  else if Nat.eqb n 10 then String backslash "n"
  else if Nat.eqb n 13 then String backslash "r"
  else if Nat.eqb n 9 then String backslash "t"
  else if Nat.ltb n 32 then String backslash ("u00" ++ hex2 false c)
  else chr c.

Fixpoint quote_body (s : string) : string :=
  match s with
  | EmptyString => EmptyString
  | String c s' => quote_char c ++ quote_body s'
  end.

(** QuoteJSONString *)
Definition quote (s : string) : string := q ++ quote_body s ++ q.

(** The closing steps of SerializeJSONObject and SerializeJSONArray:
    [partial] holds the serialized members, [gap] the indentation unit,
    [stepback] the indentation of the enclosing level. *)
Definition wrap (opening closing gap stepback : string)
    (partial : list string) : string :=
  match partial with
  | [] => opening ++ closing
  | _ =>
      if String.eqb gap "" then opening ++ join "," partial ++ closing
      else
        let indent := stepback ++ gap in
        opening ++ nl ++ indent ++ join ("," ++ nl ++ indent) partial
        ++ nl ++ stepback ++ closing
  end.

(** SerializeJSONProperty; [None] stands for the result [undefined]. *)
Fixpoint ser (gap stepback : string) (v : value) : option string :=
  match v with
  | JUndefined => None
  | JNull => Some "null"
  | JBool true => Some "true"
  | JBool false => Some "false"
  | JNum n => Some (of_Z n)
  | JStr s => Some (quote s)
  | JArr items =>
      Some (wrap "[" "]" gap stepback
              (map (fun x => match ser gap (stepback ++ gap) x with
                             | Some s => s
                             | None => "null"
                             end) items))
  | JObj props =>
      Some (wrap "{" "}" gap stepback
              (flat_map (fun p =>
                           match ser gap (stepback ++ gap) (snd p) with
                           | Some s =>
                               [quote (fst p) ++ ":"
                                ++ (if String.eqb gap "" then "" else " ")
                                ++ s]
                           | None => []
                           end) props))
  end.

(** [JSON.stringify(v)] and [JSON.stringify(v, null, 2)] as values. *)
Definition stringify (v : value) : value :=
  match ser "" "" v with Some s => JStr s | None => JUndefined end.

Definition stringify2 (v : value) : value :=
  match ser "  " "" v with Some s => JStr s | None => JUndefined end.

End JSON.

(** ** Exceptions, the environment and the effect monad *)

Inductive exn : Type :=
| Error (message : string)
| SyntaxError (message : string)
| TypeError (message : string).

Definition message (e : exn) : string :=
  match e with Error m | SyntaxError m | TypeError m => m end.

Inductive completion (A : Type) : Type :=
| Return (a : A)
| Throw (e : exn).

Arguments Return {A} a.
Arguments Throw {A} e.

(** What the program reads from outside: the outcome of running a shell
    command with [execSync] (its standard output, or the exception raised
    on a non-zero exit status or a timeout), the built-in [JSON.parse]
    (a value, or a [SyntaxError]) and the variables of [process.env]. *)
Record World : Type := {
  execSync : string -> completion string;
  JSON_parse : string -> completion value;
  process_env : string -> option string
}.

(** A computation reads the environment and extends the list of shell
    commands executed so far. *)
Definition M (A : Type) : Type :=
  World -> list string -> completion A * list string.

Definition ret {A} (a : A) : M A := fun _ t => (Return a, t).

Definition throw {A} (e : exn) : M A := fun _ t => (Throw e, t).

Definition bind {A B} (m : M A) (k : A -> M B) : M B :=
  fun w t =>
    match m w t with
    | (Return a, t') => k a w t'
    | (Throw e, t') => (Throw e, t')
    end.

Notation "x <- m ;; k" := (bind m (fun x => k))
  (at level 61, m at next level, right associativity).

(** [try { m } catch { h }] *)
Definition try_catch {A} (m : M A) (h : exn -> M A) : M A :=
  fun w t =>
    match m w t with
    | (Return a, t') => (Return a, t')
    | (Throw e, t') => h e w t'
    end.

Definition lift {A} (c : completion A) : M A := fun _ t => (c, t).

Definition exec (cmd : string) : M string :=
  fun w t => (execSync w cmd, (t ++ [cmd])%list).

Definition parse (s : string) : M value :=
  fun w t => (JSON_parse w s, t).

Definition getenv (name : string) : M (option string) :=
  fun w t => (Return (process_env w name), t).

(** Runs a computation from an empty command log. *)
Definition run {A} (m : M A) (w : World) : completion A * list string :=
  m w [].

(** Sequencing of property reads, which may raise. *)
Definition cbind {A B} (c : completion A) (k : A -> completion B)
  : completion B :=
  match c with
  | Return a => k a
  | Throw e => Throw e
  end.

Notation "x <~ c ;; k" := (cbind c (fun x => k))
  (at level 61, c at next level, right associativity).

(** The value of the property [k] of a value that is neither [null] nor
    [undefined], for the property names the program reads (none of them is
    inherited from a prototype). *)
Definition prop (v : value) (k : string) : value :=
  match v with
  | JObj props => lookup k props
  | _ => JUndefined
  end.

Definition nullish (v : value) : bool :=
  match v with JUndefined | JNull => true | _ => false end.

(** The property read [v.k]. *)
Definition get (v : value) (k : string) : completion value :=
  if nullish v then
    Throw (TypeError ("Cannot read properties of " ++ to_string v
                      ++ " (reading '" ++ k ++ "')"))
  else Return (prop v k).

(** [Array.prototype.map] with a callback that receives the element and
    its index and may raise. *)
Fixpoint map_indexed {A B} (f : A -> nat -> completion B) (i : nat)
    (l : list A) : completion (list B) :=
  match l with
  | [] => Return []
  | x :: rest =>
      y <~ f x i ;;
      ys <~ map_indexed f (S i) rest ;;
      Return (y :: ys)
  end.

(** ** Configuration *)

Record git_config : Type := {
  git_owner : string;
  git_repo : string;
  remoteUrl : string
}.

Record config : Type := {
  apiUrl : string;
  token : string;
  isGitHub : bool;
  owner : string;
  repo : string
}.

(** The regular expression [/[/:]([^/]+)\/([^/.]+)(?:\.git)?$/], matched
    the way a backtracking engine does: leftmost start, each [+] greedy. *)
Module Remote.

Definition is_slash (c : ascii) : bool := Ascii.eqb c "/"%char.
Definition is_colon (c : ascii) : bool := Ascii.eqb c ":"%char.
Definition is_dot (c : ascii) : bool := Ascii.eqb c "."%char.

(** [(?:\.git)?$] *)
Definition suffix_ok (rest : string) : bool :=
  String.eqb rest ".git" || String.eqb rest "".

(** [([^/.]+)(?:\.git)?$]: the longest admissible capture first. *)
Fixpoint match_repo (s : string) : option string :=
  match s with
  | EmptyString => None
  | String c s' =>
      if is_slash c || is_dot c then None
      else
        match match_repo s' with
        | Some r => Some (String c r)
        | None => if suffix_ok s' then Some (chr c) else None
        end
  end.

(** [([^/]+)\/([^/.]+)(?:\.git)?$] *)
Fixpoint match_owner (s : string) : option (string * string) :=
  match s with
  | EmptyString => None
  | String c s' =>
      if is_slash c then None
      else
        match match_owner s' with
        | Some (o, r) => Some (String c o, r)
        | None =>
            match s' with
            | String d s'' =>
                if is_slash d then
                  match match_repo s'' with
                  | Some r => Some (chr c, r)
                  | None => None
                  end
                else None
            | EmptyString => None
            end
        end
  end.

(** The whole expression, tried at every start position from the left;
    the result holds the two captures. *)
Fixpoint match_remote (s : string) : option (string * string) :=
  match s with
  | EmptyString => None
  | String c s' =>
      match (if is_slash c || is_colon c then match_owner s' else None) with
      | Some m => Some m
      | None => match_remote s'
      end
  end.

End Remote.

Definition git_command : string := "git remote get-url origin".

Definition detectGitConfig : M (option git_config) :=
  try_catch
    (out <- exec git_command ;;
     let url := trim out in
     match Remote.match_remote url with
     | Some (o, r) =>
         ret (Some {| git_owner := o; git_repo := r; remoteUrl := url |})
     | None => ret None
     end)
    (fun _ => ret None).

(** [process.env.NAME || fallback] *)
Definition env_or (v : option string) (fallback : string) : string :=
  match v with
  | Some s => if String.eqb s "" then fallback else s
  | None => fallback
  end.

(** [gitConfig?.field || fallback] *)
Definition detected_or (g : option git_config) (field : git_config -> string)
    (fallback : string) : string :=
  match g with
  | Some c => if String.eqb (field c) "" then fallback else field c
  | None => fallback
  end.

Definition getApiConfig : M config :=
  e_url <- getenv "GITEA_API_URL" ;;
  e_token <- getenv "GITEA_TOKEN" ;;
  e_token2 <- getenv "GITHUB_TOKEN" ;;
  let apiUrl := env_or e_url "https://api.github.com" in
  let token := env_or e_token (env_or e_token2 "") in
  gitConfig <- detectGitConfig ;;
  let isGitHub :=
    includes apiUrl "github.com"
    || match gitConfig with
       | Some g => includes (remoteUrl g) "github.com"
       | None => false
       end in
  e_owner <- getenv "GITEA_OWNER" ;;
  e_repo <- getenv "GITEA_REPO" ;;
  ret {| apiUrl := apiUrl;
         token := token;
         isGitHub := isGitHub;
         owner := detected_or gitConfig git_owner (env_or e_owner "");
         repo := detected_or gitConfig git_repo (env_or e_repo "") |}.

(** ** URLSearchParams *)

Module URLSearchParams.

(** The list of name-value pairs, in order. *)
Definition t : Type := list (string * string).

Fixpoint remove (k : string) (sp : t) : t :=
  match sp with
  | [] => []
  | (k', v') :: rest =>
      if String.eqb k k' then remove k rest else (k', v') :: remove k rest
  end.

(** [set]: the first pair named [k] takes the value and the others are
    removed; without one, the pair is appended. *)
Fixpoint set (sp : t) (k v : string) : t :=
  match sp with
  | [] => [(k, v)]
  | (k', v') :: rest =>
      if String.eqb k k' then (k, v) :: remove k rest
      else (k', v') :: set rest k v
  end.

Definition unreserved (c : ascii) : bool :=
  let n := nat_of_ascii c in
  (Nat.leb 48 n && Nat.leb n 57) || (Nat.leb 65 n && Nat.leb n 90)
  || (Nat.leb 97 n && Nat.leb n 122)
  || Nat.eqb n 42 || Nat.eqb n 45 || Nat.eqb n 46 || Nat.eqb n 95.

(** The application/x-www-form-urlencoded byte serializer. *)
Fixpoint encode (s : string) : string :=
  match s with
  | EmptyString => EmptyString
  | String c s' =>
      (if unreserved c then chr c
       else if Nat.eqb (nat_of_ascii c) 32 then "+"
       else "%" ++ hex2 true c) ++ encode s'
  end.

Definition toString (sp : t) : string :=
  join "&" (map (fun p => encode (fst p) ++ "=" ++ encode (snd p)) sp).

End URLSearchParams.

(** ** The HTTP request *)

(** The callback of [args.map] in [curlRequest]: an argument holding a
    space or an opening brace is put between single quotes. *)
Definition shell_word (a : string) : string :=
  if includes a " " || includes a "{" then "'" ++ a ++ "'" else a.

Definition shell_command (args : list string) : string :=
  join " " (map shell_word args).

Definition auth_header (token : string) (isGitHub : bool) : string :=
  "Authorization: "
  ++ (if isGitHub then "Bearer " ++ token else "token " ++ token).

Definition base_args (method : string) : list string :=
  ["curl"; "-s"; "-X"; method; "--max-time"; "30";
   "-H"; "Accept: application/json";
   "-H"; "Content-Type: application/json"].

(** The argument vector [args] once every [push] is done; [payload] is
    the serialized [data], when there is one. *)
Definition curl_args (method url : string) (payload : option string)
    (token : string) (isGitHub : bool) : list string :=
  (base_args method
   ++ (if negb (String.eqb token "") then ["-H"; auth_header token isGitHub]
       else [])
   ++ match payload with Some s => ["-d"; s] | None => [] end
   ++ [url])%list.

(** [data ? JSON.stringify(data) : nothing]; an argument that is not a
    string makes [a.includes] raise. *)
Definition payload_of (data : value) : completion (option string) :=
  if truthy data then
    match JSON.stringify data with
    | JStr s => Return (Some s)
    | other =>
        Throw (TypeError ("Cannot read properties of " ++ to_string other
                          ++ " (reading 'includes')"))
    end
  else Return None.

Definition curlRequest (method url : string) (data : value)
    (token : string) (isGitHub : bool) : M value :=
  payload <- lift (payload_of data) ;;
  result <- exec (shell_command (curl_args method url payload token isGitHub)) ;;
  parse result.

(** The loop over [Object.entries(params)]. *)
Definition search_params (params : list (string * value))
  : URLSearchParams.t :=
  fold_left
    (fun sp p =>
       match snd p with
       | JNull | JUndefined => sp
       | v => URLSearchParams.set sp (fst p) (to_string v)
       end)
    params [].

Definition request_url (cfg : config) (endpoint : string)
    (params : option (list (string * value))) : string :=
  let url := apiUrl cfg ++ endpoint in
  match params with
  | Some ps =>
      let qs := URLSearchParams.toString (search_params ps) in
      if String.eqb qs "" then url else url ++ "?" ++ qs
  | None => url
  end.

Definition apiCall (cfg : config) (method endpoint : string) (data : value)
    (params : option (list (string * value))) : M value :=
  curlRequest method (request_url cfg endpoint params) data
    (token cfg) (isGitHub cfg).

(** ** Tool results and tool handlers *)

(** [{ content: [{ type: "text", text }], isError }]; [isError] is [false]
    when the property is absent. *)
Record tool_result : Type := {
  text : value;
  isError : bool
}.

Definition success (t : value) : tool_result :=
  {| text := t; isError := false |}.

Definition failure (t : value) : tool_result :=
  {| text := t; isError := true |}.

Inductive issue_state : Type := st_open | st_closed | st_all.

Definition state_name (s : issue_state) : string :=
  match s with
  | st_open => "open"
  | st_closed => "closed"
  | st_all => "all"
  end.

(** A default parameter value [x = d]. *)
Definition default {A} (o : option A) (d : A) : A :=
  match o with Some a => a | None => d end.

(** An optional string argument as a value. *)
Definition opt_string (o : option string) : value :=
  match o with Some s => JStr s | None => JUndefined end.

Module Tools.

Definition no_org_message : string :=
  "Error: No org specified and no auth token. Provide an org name or set GITEA_TOKEN.".

(** The callback of [repos.map] in [list_repos]. *)
Definition format_repo (r : value) (i : nat) : completion string :=
  priv <~ get r "private" ;;
  let visibility := if truthy priv then "Private" else "Public" in
  language <~ get r "language" ;;
  let lang := js_or language (JStr "N/A") in
  description <~ get r "description" ;;
  let desc := js_or description (JStr "No description") in
  stargazers_count <~ get r "stargazers_count" ;;
  let stars := js_or stargazers_count (JNum 0) in
  forks_count <~ get r "forks_count" ;;
  let forks := js_or forks_count (JNum 0) in
  full_name <~ get r "full_name" ;;
  html_url <~ get r "html_url" ;;
  default_branch <~ get r "default_branch" ;;
  created_at <~ get r "created_at" ;;
  updated_at <~ get r "updated_at" ;;
  Return
    (join nl
       [of_nat (i + 1) ++ ". " ++ to_string full_name
        ++ " [" ++ visibility ++ "]";
        "   Language: " ++ to_string lang ++ " | Stars: " ++ to_string stars
        ++ " | Forks: " ++ to_string forks;
        "   Description: " ++ to_string desc;
        "   URL: " ++ to_string html_url;
        "   Default Branch: " ++ to_string (js_or default_branch (JStr "N/A"));
        "   Created: " ++ to_string (js_or created_at (JStr "N/A"));
        "   Updated: " ++ to_string (js_or updated_at (JStr "N/A"))]).

(** The text of a non-array response:
    [`${prefix}${r.message || JSON.stringify(r)}`]. *)
Definition api_error (prefix : string) (r : value) : completion tool_result :=
  m <~ get r "message" ;;
  Return (failure (JStr (prefix ++ to_string (js_or m (JSON.stringify r))))).

(** [list_repos] from the request on, once [endpoint] is chosen. *)
Definition list_repos_from (cfg : config) (endpoint : string)
    (page per_page : Z) : M tool_result :=
  repos <- apiCall cfg "GET" endpoint JNull
             (Some [("page", JNum page); ("per_page", JNum per_page);
                    ("limit", JNum per_page); ("type", JStr "all")]) ;;
  match repos with
  | JArr items =>
      lines <- lift (map_indexed format_repo 0 items) ;;
      let formatted := join (nl ++ nl) lines in
      ret (success
             (js_or
                (JStr ("Found " ++ of_nat (length items)
                       ++ " repositories:" ++ nl ++ nl ++ formatted))
                (JStr "No repositories found.")))
  | _ => lift (api_error "API Error: " repos)
  end.

Definition list_repos (cfg : config) (org : option string)
    (page per_page : option Z) : M tool_result :=
  let page := default page 1%Z in
  let per_page := default per_page 100%Z in
  let targetOrg := js_or (opt_string org) (JStr (owner cfg)) in
  if truthy targetOrg then
    list_repos_from cfg ("/orgs/" ++ to_string targetOrg ++ "/repos")
      page per_page
  else if negb (String.eqb (token cfg) "") then
    list_repos_from cfg "/user/repos" page per_page
  else ret (failure (JStr no_org_message)).

Definition get_repo (cfg : config) (owner repo : string) : M tool_result :=
  r <- apiCall cfg "GET" ("/repos/" ++ owner ++ "/" ++ repo) JNull None ;;
  ret (success (JSON.stringify2 r)).

(** The callback of [issues.map] in [list_issues]. *)
Definition format_issue (i : value) (_ : nat) : completion string :=
  number <~ get i "number" ;;
  title <~ get i "title" ;;
  state <~ get i "state" ;;
  Return ("#" ++ to_string number ++ ": " ++ to_string title
          ++ " [" ++ to_string state ++ "]").

Definition list_issues (cfg : config) (owner repo : string)
    (state : option issue_state) (page per_page : option Z)
  : M tool_result :=
  let state := default state st_open in
  let page := default page 1%Z in
  let per_page := default per_page 20%Z in
  issues <- apiCall cfg "GET" ("/repos/" ++ owner ++ "/" ++ repo ++ "/issues")
              JNull
              (Some [("state", JStr (state_name state)); ("page", JNum page);
                     ("per_page", JNum per_page); ("limit", JNum per_page)]) ;;
  match issues with
  | JArr items =>
      lines <- lift (map_indexed format_issue 0 items) ;;
      let formatted := join nl lines in
      ret (success (js_or (JStr formatted) (JStr "No issues found.")))
  | _ => lift (api_error "Error: " issues)
  end.

(** The callback of [branches.map] in [list_branches]. *)
Definition branch_name (b : value) (_ : nat) : completion value :=
  get b "name".

(** The element conversion of [Array.prototype.join]. *)
Definition join_item (v : value) : string :=
  match v with
  | JUndefined | JNull => ""
  | _ => to_string v
  end.

Definition list_branches (cfg : config) (owner repo : string)
  : M tool_result :=
  branches <- apiCall cfg "GET"
                ("/repos/" ++ owner ++ "/" ++ repo ++ "/branches") JNull None ;;
  match branches with
  | JArr items =>
      names <- lift (map_indexed branch_name 0 items) ;;
      let formatted := join nl (map join_item names) in
      ret (success (js_or (JStr formatted) (JStr "No branches found.")))
  | _ => lift (api_error "Error: " branches)
  end.

(** The text of [create_issue] and [create_pull_request]. *)
Definition created (what : string) (r : value) : completion tool_result :=
  number <~ get r "number" ;;
  title <~ get r "title" ;;
  html_url <~ get r "html_url" ;;
  Return (success (JStr ("Created " ++ what ++ " #" ++ to_string number
                         ++ ": " ++ to_string title ++ nl
                         ++ "URL: " ++ to_string html_url))).

Definition create_issue (cfg : config) (owner repo title : string)
    (body : option string) : M tool_result :=
  issue <- apiCall cfg "POST" ("/repos/" ++ owner ++ "/" ++ repo ++ "/issues")
             (JObj [("title", JStr title); ("body", opt_string body)]) None ;;
  lift (created "issue" issue).

Definition create_pull_request (cfg : config) (owner repo title head : string)
    (base body : option string) : M tool_result :=
  let base := default base "main" in
  pr <- apiCall cfg "POST" ("/repos/" ++ owner ++ "/" ++ repo ++ "/pulls")
          (JObj [("title", JStr title); ("head", JStr head);
                 ("base", JStr base); ("body", opt_string body)]) None ;;
  lift (created "PR" pr).

Definition connection_info (cfg : config) (gitConfig : option git_config)
  : value :=
  JObj [("api_url", JStr (apiUrl cfg));
        ("is_github", JBool (isGitHub cfg));
        ("authenticated", JBool (negb (String.eqb (token cfg) "")));
        ("detected_owner", JStr (owner cfg));
        ("detected_repo", JStr (repo cfg));
        ("git_remote",
         JStr (detected_or gitConfig remoteUrl "not detected"))].

Definition get_connection_info (cfg : config) : M tool_result :=
  gitConfig <- detectGitConfig ;;
  ret (success (JSON.stringify2 (connection_info cfg gitConfig))).

End Tools.

(** The tools registered with the server, with the arguments the schema of
    each one admits. *)
Inductive invocation : Type :=
| Call_list_repos (org : option string) (page per_page : option Z)
| Call_get_repo (owner repo : string)
| Call_list_issues (owner repo : string) (state : option issue_state)
    (page per_page : option Z)
| Call_list_branches (owner repo : string)
| Call_create_issue (owner repo title : string) (body : option string)
| Call_create_pull_request (owner repo title head : string)
    (base body : option string)
| Call_get_connection_info.

Definition handle (cfg : config) (c : invocation) : M tool_result :=
  match c with
  | Call_list_repos org page per_page => Tools.list_repos cfg org page per_page
  | Call_get_repo o r => Tools.get_repo cfg o r
  | Call_list_issues o r st page per_page =>
      Tools.list_issues cfg o r st page per_page
  | Call_list_branches o r => Tools.list_branches cfg o r
  | Call_create_issue o r t b => Tools.create_issue cfg o r t b
  | Call_create_pull_request o r t h b d =>
      Tools.create_pull_request cfg o r t h b d
  | Call_get_connection_info => Tools.get_connection_info cfg
  end.

(** ** The dispatch boundary *)

(** Modelled from the spec: the dispatch boundary is the protocol library
    ([McpServer] of the MCP SDK), which calls the handler registered by
    [server.tool]; its source is not in the repository.  The specification
    says that every error of an invocation is caught there and converted
    into a structured error result that carries the message of the
    failure, and that nothing is raised across the boundary. *)
Definition dispatch (cfg : config) (c : invocation) : M tool_result :=
  try_catch (handle cfg c) (fun e => ret (failure (JStr (message e)))).

(** ** Vocabulary of the statements *)

(** The command line of the request a tool sends. *)
Definition request_command (cfg : config) (method endpoint : string)
    (payload : option string) (params : option (list (string * value)))
  : string :=
  shell_command
    (curl_args method (request_url cfg endpoint params) payload
       (token cfg) (isGitHub cfg)).

(** [JSON.parse(execSync(cmd))] in the environment [w]. *)
Definition fetch (w : World) (cmd : string) : completion value :=
  out <~ execSync w cmd ;; JSON_parse w out.

(** The computation ran exactly one command, and the output of that
    command parsed to the value [r]. *)
Definition http_returns {A} (m : M A) (w : World) (r : value) : Prop :=
  exists cmd, snd (run m w) = [cmd] /\ fetch w cmd = Return r.

(** The three tools that expect an array. *)
Definition listing (c : invocation) : bool :=
  match c with
  | Call_list_repos _ _ _ | Call_list_issues _ _ _ _ _
  | Call_list_branches _ _ => true
  | _ => false
  end.



(** The variables of an environment given as a list. *)
Fixpoint assoc (name : string) (env : list (string * string))
  : option string :=
  match env with
  | [] => None
  | (k, v) :: rest => if String.eqb name k then Some v else assoc name rest
  end.

(** An environment in which every curl command prints [out], which parses
    to [r]; there is no git remote and no variable is set but those of
    [env]. *)
Definition mock_world (out : string) (r : value)
    (env : list (string * string)) : World :=
  {| execSync := fun cmd =>
       if String.eqb cmd git_command then Throw (Error "Command failed")
       else Return out;
     JSON_parse := fun s =>
       if String.eqb s out then Return r
       else Throw (SyntaxError "Unexpected token");
     process_env := fun name => assoc name env |}.

(** An environment in which the git remote is [remote]. *)
Definition git_world (remote : completion string)
    (env : list (string * string)) : World :=
  {| execSync := fun cmd =>
       if String.eqb cmd git_command then remote
       else Throw (Error "Command failed");
     JSON_parse := fun _ => Throw (SyntaxError "Unexpected token");
     process_env := fun name => assoc name env |}.

Definition github_config : config :=
  {| apiUrl := "https://api.github.com"; token := "tok"; isGitHub := true;
     owner := ""; repo := "" |}.

Definition bare_config : config :=
  {| apiUrl := "https://git.example.org/api/v1"; token := "";
     isGitHub := false; owner := ""; repo := "" |}.

Definition not_found : value := JObj [("message", JStr "Not Found")].

Definition issue_7 : value :=
  JObj [("number", JNum 7); ("title", JStr "Bug");
        ("html_url", JStr "https://x/7")].

(** Every character of [s] satisfies [p]. *)
Fixpoint all_chars (p : ascii -> bool) (s : string) : bool :=
  match s with
  | EmptyString => true
  | String c s' => p c && all_chars p s'
  end.

(** An owner is a non-empty run of characters other than the slash. *)
Definition owner_segment (o : string) : bool :=
  negb (String.eqb o "")
  && all_chars (fun c => negb (Remote.is_slash c)) o.

(** A repository name is a non-empty run of characters other than the
    slash and the dot. *)
Definition repo_segment (r : string) : bool :=
  negb (String.eqb r "")
  && all_chars (fun c => negb (Remote.is_slash c || Remote.is_dot c)) r.

(** The trailing [<owner>/<repo>] shape: the URL ends with a slash or a
    colon, an owner, a slash, a repository name and, optionally, the
    extension [.git]. *)
Definition remote_shape (s : string) : Prop :=
  exists pre c o r suf,
    s = pre ++ String c (o ++ "/" ++ r ++ suf)
    /\ (Remote.is_slash c || Remote.is_colon c) = true
    /\ owner_segment o = true
    /\ repo_segment r = true
    /\ Remote.suffix_ok suf = true.

(** What [detectGitConfig] finds in the environment [w]. *)
Definition detection (w : World) : option git_config :=
  match execSync w git_command with
  | Return out =>
      match Remote.match_remote (trim out) with
      | Some (o, r) =>
          Some {| git_owner := o; git_repo := r; remoteUrl := trim out |}
      | None => None
      end
  | Throw _ => None
  end.

(** The text of [get_connection_info]'s property [git_remote]. *)
Definition git_remote_text (g : option git_config) : string :=
  match g with
  | Some c => remoteUrl c
  | None => "not detected"
  end.



(** Every character of [s] is an ASCII character other than white space;
    every character of [s] is ASCII white space. *)
Definition ascii_word (s : string) : bool :=
  all_chars (fun c => Nat.ltb (nat_of_ascii c) 128 && negb (is_space c)) s.

Definition only_space (s : string) : bool := all_chars is_space s.

(** The characters of a serialized query string: the unreserved ones, the
    plus sign, the percent sign and the two separators. *)
Definition query_char (c : ascii) : bool :=
  URLSearchParams.unreserved c
  || Ascii.eqb c "+"%char || Ascii.eqb c "%"%char
  || Ascii.eqb c "&"%char || Ascii.eqb c "="%char.

(** The parameters of the request of [list_issues] and of [list_repos]. *)
Definition issues_params (state : issue_state) (page per_page : Z)
  : option (list (string * value)) :=
  Some [("state", JStr (state_name state)); ("page", JNum page);
        ("per_page", JNum per_page); ("limit", JNum per_page)].

Definition repos_params (page per_page : Z)
  : option (list (string * value)) :=
  Some [("page", JNum page); ("per_page", JNum per_page);
        ("limit", JNum per_page); ("type", JStr "all")].

(** The line [list_branches] prints for one branch. *)
Definition branch_line (b : value) : string :=
  Tools.join_item (prop b "name").




(** The variable [name] is unset or empty. *)
Definition unset (w : World) (name : string) : Prop :=
  process_env w name = None \/ process_env w name = Some "".


(** The number of occurrences of the character [c] in [s]. *)
Fixpoint occurrences (c : ascii) (s : string) : nat :=
  match s with
  | EmptyString => 0
  | String d s' => (if Ascii.eqb c d then 1 else 0) + occurrences c s'
  end.

(** ** The request of every tool *)

Lemma bind_run {A B} (m : M A) (k : A -> M B) w t :
  bind m k w t =
  match m w t with
  | (Return a, t') => k a w t'
  | (Throw e, t') => (Throw e, t')
  end.
Proof. reflexivity. Qed.

Lemma curlRequest_run method url data tok gh payload w t :
  payload_of data = Return payload ->
  curlRequest method url data tok gh w t =
  (fetch w (shell_command (curl_args method url payload tok gh)),
   (t ++ [shell_command (curl_args method url payload tok gh)])%list).
Proof.
  intros Hp. unfold curlRequest, fetch, bind, lift, exec, parse.
  rewrite Hp. destruct (execSync w _); reflexivity.
Qed.

Lemma apiCall_run cfg method endpoint data params payload w t :
  payload_of data = Return payload ->
  apiCall cfg method endpoint data params w t =
  (fetch w (request_command cfg method endpoint payload params),
   (t ++ [request_command cfg method endpoint payload params])%list).
Proof. intros Hp. unfold apiCall. now apply curlRequest_run. Qed.

(** A request body that is an object is always sent. *)
Lemma payload_of_object props :
  exists s, JSON.stringify (JObj props) = JStr s
            /\ payload_of (JObj props) = Return (Some s).
Proof.
  unfold payload_of, JSON.stringify. simpl. eexists. split; reflexivity.
Qed.

Lemma payload_of_null : payload_of JNull = Return None.
Proof. reflexivity. Qed.

(** A bound computation that starts with a request. *)
Lemma bind_apiCall {B} cfg method endpoint data params payload
    (k : value -> M B) w :
  payload_of data = Return payload ->
  run (bind (apiCall cfg method endpoint data params) k) w =
  match fetch w (request_command cfg method endpoint payload params) with
  | Return r => k r w [request_command cfg method endpoint payload params]
  | Throw e =>
      (Throw e, [request_command cfg method endpoint payload params])
  end.
Proof.
  intros Hp. unfold run. rewrite bind_run, (apiCall_run _ _ _ _ _ _ _ _ Hp).
  reflexivity.
Qed.

(** A computation that only formats never touches the command log. *)
Lemma lift_run {A} (c : completion A) w t : lift c w t = (c, t).
Proof. reflexivity. Qed.

Lemma bind_lift {A B} (c : completion A) (k : A -> M B) w t :
  bind (lift c) k w t =
  match c with
  | Return a => k a w t
  | Throw e => (Throw e, t)
  end.
Proof. unfold bind, lift. destruct c; reflexivity. Qed.

Lemma get_defined v k : nullish v = false -> get v k = Return (prop v k).
Proof. unfold get. now intros ->. Qed.

(** ** list_repos without a target *)

(** C3.  [list_repos] called without [org], with an empty default owner
    and an empty token in the configuration, returns the error result
    with the corrective message and runs no command at all, so that no
    HTTP request is sent. *)
Theorem list_repos_without_target cfg w page per_page :
  owner cfg = "" -> token cfg = "" ->
  run (handle cfg (Call_list_repos None page per_page)) w
  = (Return {| text := JStr Tools.no_org_message; isError := true |}, []).
Proof.
  intros Ho Ht. unfold run, handle, Tools.list_repos. simpl.
  rewrite Ho, Ht. reflexivity.
Qed.

Lemma list_repos_without_target_witness :
  owner bare_config = "" /\ token bare_config = "" /\
  run (handle bare_config (Call_list_repos None None (Some 50%Z)))
    (mock_world "[]" (JArr []) [])
  = (Return {| text := JStr Tools.no_org_message; isError := true |}, []).
Proof.
  split; [reflexivity | split; [reflexivity |]].
  apply (list_repos_without_target bare_config); reflexivity.
Defined.

(** ** get_repo *)

Lemma get_repo_run cfg w o r :
  run (handle cfg (Call_get_repo o r)) w
  = (parsed <~ fetch w (request_command cfg "GET" ("/repos/" ++ o ++ "/" ++ r)
                          None None) ;;
     Return (success (JSON.stringify2 parsed)),
     [request_command cfg "GET" ("/repos/" ++ o ++ "/" ++ r) None None]).
Proof.
  unfold handle, Tools.get_repo.
  rewrite (bind_apiCall _ _ _ _ _ None _ _ payload_of_null).
  destruct (fetch w _); reflexivity.
Qed.

(** X26.  For every owner and repository name, [get_repo] hands one
    command line to [execSync]: the curl command of a GET without a body
    whose last argument is [<apiUrl>/repos/<owner>/<repo>], the two names
    spliced in as they are given.  When the output of that command parses
    to a value, the tool returns a success result whose text is that
    value serialized by [JSON.stringify] with an indentation of two
    spaces. *)
Theorem get_repo_passthrough cfg w o r parsed :
  let cmd :=
    shell_command
      (curl_args "GET" (apiUrl cfg ++ "/repos/" ++ o ++ "/" ++ r) None
         (token cfg) (isGitHub cfg)) in
  fetch w cmd = Return parsed ->
  run (handle cfg (Call_get_repo o r)) w
  = (Return {| text := JSON.stringify2 parsed; isError := false |}, [cmd]).
Proof.
  intros cmd Hf. rewrite get_repo_run.
  unfold request_command, request_url. fold cmd. rewrite Hf. reflexivity.
Qed.

Lemma get_repo_passthrough_witness :
  let w := mock_world "{}" (JObj [("id", JNum 1); ("tags", JArr [])]) [] in
  let cmd :=
    "curl -s -X GET --max-time 30 -H 'Accept: application/json' -H 'Content-Type: application/json' https://git.example.org/api/v1/repos/acme/widget" in
  fetch w cmd = Return (JObj [("id", JNum 1); ("tags", JArr [])]) /\
  run (handle bare_config (Call_get_repo "acme" "widget")) w
  = (Return (success (JStr ("{" ++ nl ++ "  " ++ q ++ "id" ++ q ++ ": 1,"
                            ++ nl ++ "  " ++ q ++ "tags" ++ q ++ ": []"
                            ++ nl ++ "}"))),
     [cmd]).
Proof.
  intros w cmd. split; [reflexivity |].
  exact (get_repo_passthrough bare_config w "acme" "widget"
           (JObj [("id", JNum 1); ("tags", JArr [])]) eq_refl).
Defined.

(** ** create_issue and create_pull_request *)

Lemma created_run {B} cfg w endpoint props (k : value -> M B) :
  exists payload,
    JSON.stringify (JObj props) = JStr payload /\
    run (bind (apiCall cfg "POST" endpoint (JObj props) None) k) w
    = match fetch w (request_command cfg "POST" endpoint (Some payload) None)
      with
      | Return r =>
          k r w [request_command cfg "POST" endpoint (Some payload) None]
      | Throw e =>
          (Throw e,
           [request_command cfg "POST" endpoint (Some payload) None])
      end.
Proof.
  destruct (payload_of_object props) as [s [Hs Hp]].
  exists s. split; [exact Hs |]. now apply bind_apiCall.
Qed.

Lemma post_run {B} cfg w endpoint props (f : value -> completion B) :
  exists payload,
    JSON.stringify (JObj props) = JStr payload /\
    run (bind (apiCall cfg "POST" endpoint (JObj props) None)
           (fun r => lift (f r))) w
    = (r <~ fetch w (request_command cfg "POST" endpoint (Some payload) None) ;;
       f r,
       [request_command cfg "POST" endpoint (Some payload) None]).
Proof.
  destruct (created_run cfg w endpoint props (fun r => lift (f r)))
    as [s [Hs Hrun]].
  exists s. split; [exact Hs |]. rewrite Hrun.
  destruct (fetch w (request_command cfg "POST" endpoint (Some s) None));
    reflexivity.
Qed.

(** C5.  [create_issue] for acme/widget with the title Bug and no body
    runs one command, the curl command line of a POST request to
    [<apiUrl>/repos/acme/widget/issues] whose [-d] argument is the
    serialization of [{title: "Bug", body: undefined}], in which the
    undefined property is left out; when the response is
    [{number: 7, title: "Bug", html_url: "https://x/7"}] the tool returns
    the success text of the issue created. *)
Theorem create_issue_scenario cfg w :
  let payload := "{" ++ q ++ "title" ++ q ++ ":" ++ q ++ "Bug" ++ q ++ "}" in
  let cmd :=
    shell_command
      (curl_args "POST" (apiUrl cfg ++ "/repos/acme/widget/issues")
         (Some payload) (token cfg) (isGitHub cfg)) in
  JSON.stringify (JObj [("title", JStr "Bug"); ("body", JUndefined)])
  = JStr payload /\
  snd (run (handle cfg (Call_create_issue "acme" "widget" "Bug" None)) w)
  = [cmd] /\
  (fetch w cmd = Return issue_7 ->
   fst (run (handle cfg (Call_create_issue "acme" "widget" "Bug" None)) w)
   = Return {| text := JStr ("Created issue #7: Bug" ++ nl
                             ++ "URL: https://x/7");
               isError := false |}).
Proof.
  intros payload cmd. split; [reflexivity |].
  unfold handle, Tools.create_issue.
  destruct (created_run cfg w "/repos/acme/widget/issues"
              [("title", JStr "Bug"); ("body", opt_string None)]
              (fun issue => lift (Tools.created "issue" issue)))
    as [s [Hs Hrun]].
  simpl in Hs. injection Hs as <-.
  change (String.append "/repos/" _) with "/repos/acme/widget/issues".
  rewrite Hrun.
  change (request_command cfg "POST" "/repos/acme/widget/issues" (Some _) None)
    with cmd.
  split.
  - destruct (fetch w cmd) as [r |]; [| reflexivity].
    rewrite lift_run. reflexivity.
  - intros ->. reflexivity.
Qed.

Lemma create_issue_scenario_witness :
  let w := mock_world "ok" issue_7 [] in
  let cmd :=
    "curl -s -X POST --max-time 30 -H 'Accept: application/json' -H 'Content-Type: application/json' -H 'Authorization: Bearer tok' -d '{"
    ++ q ++ "title" ++ q ++ ":" ++ q ++ "Bug" ++ q
    ++ "}' https://api.github.com/repos/acme/widget/issues" in
  fetch w cmd = Return issue_7 /\
  run (handle github_config (Call_create_issue "acme" "widget" "Bug" None)) w
  = (Return (success (JStr ("Created issue #7: Bug" ++ nl
                            ++ "URL: https://x/7"))), [cmd]).
Proof.
  split; [reflexivity |].
  destruct (create_issue_scenario github_config
              (mock_world "ok" issue_7 [])) as [_ [Ht Hr]].
  specialize (Hr eq_refl).
  apply injective_projections; [exact Hr | exact Ht].
Defined.

(** ** The listing tools *)

Lemma list_issues_run cfg w o r st page per_page :
  let cmd :=
    request_command cfg "GET" ("/repos/" ++ o ++ "/" ++ r ++ "/issues") None
      (Some [("state", JStr (state_name (default st st_open)));
             ("page", JNum (default page 1%Z));
             ("per_page", JNum (default per_page 20%Z));
             ("limit", JNum (default per_page 20%Z))]) in
  run (handle cfg (Call_list_issues o r st page per_page)) w
  = (issues <~ fetch w cmd ;;
     match issues with
     | JArr items =>
         lines <~ map_indexed Tools.format_issue 0 items ;;
         Return (success (js_or (JStr (join nl lines))
                            (JStr "No issues found.")))
     | _ => Tools.api_error "Error: " issues
     end, [cmd]).
Proof.
  intros cmd. unfold handle, Tools.list_issues.
  rewrite (bind_apiCall _ _ _ _ _ None _ _ payload_of_null). fold cmd.
  destruct (fetch w cmd) as [issues |]; [| reflexivity].
  simpl. destruct issues; try reflexivity.
  rewrite bind_lift.
  destruct (map_indexed Tools.format_issue 0 items); reflexivity.
Qed.

Lemma list_branches_run cfg w o r :
  let cmd :=
    request_command cfg "GET" ("/repos/" ++ o ++ "/" ++ r ++ "/branches")
      None None in
  run (handle cfg (Call_list_branches o r)) w
  = (branches <~ fetch w cmd ;;
     match branches with
     | JArr items =>
         names <~ map_indexed Tools.branch_name 0 items ;;
         Return (success (js_or (JStr (join nl (map Tools.join_item names)))
                            (JStr "No branches found.")))
     | _ => Tools.api_error "Error: " branches
     end, [cmd]).
Proof.
  intros cmd. unfold handle, Tools.list_branches.
  rewrite (bind_apiCall _ _ _ _ _ None _ _ payload_of_null). fold cmd.
  destruct (fetch w cmd) as [branches |]; [| reflexivity].
  simpl. destruct branches; try reflexivity.
  rewrite bind_lift.
  destruct (map_indexed Tools.branch_name 0 items); reflexivity.
Qed.

Lemma list_repos_from_run cfg w endpoint page per_page :
  let cmd :=
    request_command cfg "GET" endpoint None
      (Some [("page", JNum page); ("per_page", JNum per_page);
             ("limit", JNum per_page); ("type", JStr "all")]) in
  run (Tools.list_repos_from cfg endpoint page per_page) w
  = (repos <~ fetch w cmd ;;
     match repos with
     | JArr items =>
         lines <~ map_indexed Tools.format_repo 0 items ;;
         Return (success
                   (JStr ("Found " ++ of_nat (length items)
                          ++ " repositories:" ++ nl ++ nl
                          ++ join (nl ++ nl) lines)))
     | _ => Tools.api_error "API Error: " repos
     end, [cmd]).
Proof.
  intros cmd. unfold Tools.list_repos_from.
  rewrite (bind_apiCall _ _ _ _ _ None _ _ payload_of_null). fold cmd.
  destruct (fetch w cmd) as [repos |]; [| reflexivity].
  simpl. destruct repos; try reflexivity.
  rewrite bind_lift.
  destruct (map_indexed Tools.format_repo 0 items); reflexivity.
Qed.




(** ** The expression that recognises a remote *)

Lemma match_repo_sound s r :
  Remote.match_repo s = Some r ->
  repo_segment r = true
  /\ exists suf, s = r ++ suf /\ Remote.suffix_ok suf = true.
Proof.
  revert r. induction s as [| c s IH]; intros r H; [discriminate |].
  simpl in H.
  destruct (Remote.is_slash c || Remote.is_dot c) eqn:Hc; [discriminate |].
  destruct (Remote.match_repo s) as [r' |] eqn:Hm.
  - injection H as <-. destruct (IH r' eq_refl) as [Hseg [suf [-> Hsuf]]].
    split.
    + unfold repo_segment in *. simpl. rewrite Hc. simpl.
      now apply andb_true_iff in Hseg as [_ ->].
    + exists suf. split; [reflexivity | exact Hsuf].
  - destruct (Remote.suffix_ok s) eqn:Hs; [| discriminate].
    injection H as <-. split.
    + unfold repo_segment. simpl. now rewrite Hc.
    + exists s. split; [reflexivity | exact Hs].
Qed.

Lemma match_owner_sound s o r :
  Remote.match_owner s = Some (o, r) ->
  owner_segment o = true /\ repo_segment r = true
  /\ exists suf, s = o ++ "/" ++ r ++ suf /\ Remote.suffix_ok suf = true.
Proof.
  revert o r. induction s as [| c s IH]; intros o r H; [discriminate |].
  simpl in H. destruct (Remote.is_slash c) eqn:Hc; [discriminate |].
  destruct (Remote.match_owner s) as [[o' r'] |] eqn:Hm.
  - injection H as <- <-.
    destruct (IH o' r' eq_refl) as [Ho [Hr [suf [-> Hsuf]]]].
    split; [| split; [exact Hr |]].
    + unfold owner_segment in *. simpl. rewrite Hc. simpl.
      now apply andb_true_iff in Ho as [_ ->].
    + exists suf. split; [reflexivity | exact Hsuf].
  - destruct s as [| d s']; [discriminate |].
    destruct (Remote.is_slash d) eqn:Hd; [| discriminate].
    destruct (Remote.match_repo s') as [r' |] eqn:Hr; [| discriminate].
    injection H as <- <-.
    destruct (match_repo_sound _ _ Hr) as [Hseg [suf [-> Hsuf]]].
    split; [| split; [exact Hseg |]].
    + unfold owner_segment. simpl. now rewrite Hc.
    + exists suf. split; [| exact Hsuf].
      apply Ascii.eqb_eq in Hd. subst d. reflexivity.
Qed.

Lemma match_repo_complete r suf :
  repo_segment r = true -> Remote.suffix_ok suf = true ->
  Remote.match_repo (r ++ suf) = Some r.
Proof.
  intros Hr Hsuf. unfold repo_segment in Hr.
  apply andb_true_iff in Hr as [Hne Hall].
  induction r as [| c r IH]; [discriminate |].
  simpl in Hall. apply andb_true_iff in Hall as [Hc Hall].
  apply negb_true_iff in Hc. simpl. rewrite Hc.
  destruct r as [| d r'].
  - simpl. replace (Remote.match_repo suf) with (@None string).
    + now rewrite Hsuf.
    + unfold Remote.suffix_ok in Hsuf. apply orb_true_iff in Hsuf as [H | H];
        apply String.eqb_eq in H; subst suf; reflexivity.
  - now rewrite (IH eq_refl Hall).
Qed.

Lemma match_owner_cons c s :
  Remote.match_owner (String c s)
  = if Remote.is_slash c then None
    else
      match Remote.match_owner s with
      | Some (o, r) => Some (String c o, r)
      | None =>
          match s with
          | String d s'' =>
              if Remote.is_slash d then
                match Remote.match_repo s'' with
                | Some r => Some (chr c, r)
                | None => None
                end
              else None
          | EmptyString => None
          end
      end.
Proof. reflexivity. Qed.

Lemma match_owner_complete o r suf :
  owner_segment o = true -> repo_segment r = true ->
  Remote.suffix_ok suf = true ->
  Remote.match_owner (o ++ "/" ++ r ++ suf) = Some (o, r).
Proof.
  intros Ho Hr Hsuf. unfold owner_segment in Ho.
  apply andb_true_iff in Ho as [Hne Hall].
  induction o as [| c o IH]; [discriminate |].
  simpl in Hall. apply andb_true_iff in Hall as [Hc Hall].
  apply negb_true_iff in Hc.
  change (String c o ++ "/" ++ r ++ suf)
    with (String c (o ++ "/" ++ r ++ suf)).
  rewrite match_owner_cons, Hc.
  destruct o as [| d o'].
  - simpl. now rewrite (match_repo_complete _ _ Hr Hsuf).
  - now rewrite (IH eq_refl Hall).
Qed.

Lemma match_remote_cons c s :
  Remote.match_remote (String c s)
  = match (if Remote.is_slash c || Remote.is_colon c
           then Remote.match_owner s else None) with
    | Some m => Some m
    | None => Remote.match_remote s
    end.
Proof. reflexivity. Qed.

(** The expression matches exactly the URLs of the trailing shape. *)
Lemma match_remote_shape s :
  Remote.match_remote s <> None <-> remote_shape s.
Proof.
  split.
  - induction s as [| c s IH]; intros H; [now elim H |].
    simpl in H.
    destruct (Remote.is_slash c || Remote.is_colon c) eqn:Hc.
    + destruct (Remote.match_owner s) as [[o r] |] eqn:Hm.
      * destruct (match_owner_sound _ _ _ Hm) as [Ho [Hr [suf [-> Hsuf]]]].
        exists "", c, o, r, suf. repeat split; assumption.
      * destruct (IH H) as [pre [c' [o [r [suf [-> Hrest]]]]]].
        exists (String c pre), c', o, r, suf. split; [reflexivity | exact Hrest].
    + destruct (IH H) as [pre [c' [o [r [suf [-> Hrest]]]]]].
      exists (String c pre), c', o, r, suf. split; [reflexivity | exact Hrest].
  - intros [pre [c [o [r [suf [-> [Hc [Ho [Hr Hsuf]]]]]]]]].
    induction pre as [| d pre IH].
    + change ("" ++ String c (o ++ "/" ++ r ++ suf))
        with (String c (o ++ "/" ++ r ++ suf)).
      rewrite match_remote_cons, Hc,
        (match_owner_complete _ _ _ Ho Hr Hsuf).
      discriminate.
    + change (String d pre ++ String c (o ++ "/" ++ r ++ suf))
        with (String d (pre ++ String c (o ++ "/" ++ r ++ suf))).
      rewrite match_remote_cons.
      destruct (if Remote.is_slash d || Remote.is_colon d
                then Remote.match_owner _ else None);
        [discriminate | exact IH].
Qed.

Lemma match_owner_or_repo_nonempty s o r :
  Remote.match_remote s = Some (o, r) -> o <> "" /\ r <> "".
Proof.
  induction s as [| c s IH]; [discriminate |].
  rewrite match_remote_cons.
  destruct (Remote.is_slash c || Remote.is_colon c); [| exact IH].
  destruct (Remote.match_owner s) as [[o' r'] |] eqn:Hm; [| exact IH].
  intros [= <- <-].
  destruct (match_owner_sound _ _ _ Hm) as [Ho [Hr _]].
  unfold owner_segment in Ho. unfold repo_segment in Hr.
  apply andb_true_iff in Ho as [Ho _]. apply andb_true_iff in Hr as [Hr _].
  apply negb_true_iff in Ho, Hr.
  split; now apply String.eqb_neq.
Qed.

Lemma no_remote_shape s :
  ~ remote_shape s -> Remote.match_remote s = None.
Proof.
  intros H. destruct (Remote.match_remote s) eqn:Hm; [| reflexivity].
  elim H. apply match_remote_shape. rewrite Hm. discriminate.
Qed.

(** ** Detection of the git remote *)

Lemma detectGitConfig_run w t :
  detectGitConfig w t = (Return (detection w), (t ++ [git_command])%list).
Proof.
  unfold detectGitConfig, detection, try_catch, bind, exec, ret.
  destruct (execSync w git_command) as [out | e]; [| reflexivity].
  destruct (Remote.match_remote (trim out)) as [[o r] |]; reflexivity.
Qed.

Lemma getApiConfig_run w :
  run getApiConfig w
  = (Return
       {| apiUrl := env_or (process_env w "GITEA_API_URL")
                      "https://api.github.com";
          token := env_or (process_env w "GITEA_TOKEN")
                     (env_or (process_env w "GITHUB_TOKEN") "");
          isGitHub :=
            includes (env_or (process_env w "GITEA_API_URL")
                        "https://api.github.com") "github.com"
            || match detection w with
               | Some g => includes (remoteUrl g) "github.com"
               | None => false
               end;
          owner := detected_or (detection w) git_owner
                     (env_or (process_env w "GITEA_OWNER") "");
          repo := detected_or (detection w) git_repo
                    (env_or (process_env w "GITEA_REPO") "") |},
     [git_command]).
Proof.
  unfold run, getApiConfig, getenv.
  rewrite !bind_run, detectGitConfig_run. reflexivity.
Qed.

Lemma match_remote_nonempty s o r :
  Remote.match_remote s = Some (o, r) -> s <> "".
Proof. intros H ->. discriminate H. Qed.

Lemma detection_remote_nonempty w g :
  detection w = Some g -> remoteUrl g <> "".
Proof.
  unfold detection. destruct (execSync w git_command) as [out |]; [| discriminate].
  destruct (Remote.match_remote (trim out)) as [[o r] |] eqn:Hm; [| discriminate].
  intros [= <-]. simpl. exact (match_remote_nonempty _ _ _ Hm).
Qed.

(** C8.  When the git remote is [git@host:acme/widget.git], the resolved
    configuration has the owner acme and the repository widget.  When the
    remote query fails, or its output has not the trailing shape of an
    owner, a slash and a repository name, [detectGitConfig]
    returns null without raising, and the owner and the repository of the
    resolved configuration are the variables GITEA_OWNER and GITEA_REPO,
    or the empty string for a variable that is unset or empty. *)
Theorem remote_detection w :
  (forall out,
      execSync w git_command = Return out ->
      trim out = "git@host:acme/widget.git" ->
      exists cfg,
        fst (run getApiConfig w) = Return cfg
        /\ owner cfg = "acme" /\ repo cfg = "widget")
  /\
  ((forall out,
       execSync w git_command = Return out -> ~ remote_shape (trim out)) ->
   fst (run detectGitConfig w) = Return None
   /\ exists cfg,
       fst (run getApiConfig w) = Return cfg
       /\ owner cfg = env_or (process_env w "GITEA_OWNER") ""
       /\ repo cfg = env_or (process_env w "GITEA_REPO") "").
Proof.
  split.
  - intros out Hexec Htrim. rewrite getApiConfig_run. eexists.
    split; [reflexivity |]. simpl.
    unfold detection. rewrite Hexec, Htrim. split; reflexivity.
  - intros Hno.
    assert (Hd : detection w = None).
    { unfold detection. destruct (execSync w git_command) as [out |] eqn:He;
        [| reflexivity].
      now rewrite (no_remote_shape _ (Hno out eq_refl)). }
    unfold run at 1. rewrite detectGitConfig_run, Hd.
    split; [reflexivity |].
    rewrite getApiConfig_run. eexists. split; [reflexivity |].
    simpl. rewrite Hd. split; reflexivity.
Qed.

Lemma remote_detection_witness :
  (let w := git_world (Return ("git@host:acme/widget.git" ++ nl))
              [("GITEA_OWNER", "fallback")] in
   exists cfg,
     fst (run getApiConfig w) = Return cfg
     /\ owner cfg = "acme" /\ repo cfg = "widget")
  /\
  (let w := git_world (Return "not a remote") [("GITEA_OWNER", "fallback")] in
   fst (run detectGitConfig w) = Return None
   /\ exists cfg,
       fst (run getApiConfig w) = Return cfg
       /\ owner cfg = "fallback" /\ repo cfg = "").
Proof.
  split.
  - intros w.
    exact (proj1 (remote_detection w) _ eq_refl eq_refl).
  - intros w.
    refine (proj2 (remote_detection w) _).
    intros out [= <-] Hshape.
    apply match_remote_shape in Hshape. now apply Hshape.
Defined.

(** A remote of the trailing shape gives the owner and the repository of
    the configuration, before any variable. *)
Lemma detected_owner_repo w out o r :
  execSync w git_command = Return out ->
  Remote.match_remote (trim out) = Some (o, r) ->
  exists cfg,
    fst (run getApiConfig w) = Return cfg /\ owner cfg = o /\ repo cfg = r.
Proof.
  intros Hexec Hm. rewrite getApiConfig_run. eexists.
  split; [reflexivity |]. simpl. unfold detection. rewrite Hexec, Hm.
  destruct (match_owner_or_repo_nonempty _ _ _ Hm) as [Ho Hr].
  unfold detected_or. simpl.
  apply String.eqb_neq in Ho, Hr. now rewrite Ho, Hr.
Qed.

(** The query fails: detection returns null and the variables decide. *)
Lemma remote_detection_query_fails :
  let w := git_world (Throw (Error "Command failed: git remote get-url origin"))
             [("GITEA_REPO", "widget")] in
  run detectGitConfig w = (Return None, [git_command])
  /\ fst (run getApiConfig w)
     = Return {| apiUrl := "https://api.github.com"; token := "";
                 isGitHub := true; owner := ""; repo := "widget" |}.
Proof. split; reflexivity. Qed.

(** ** get_connection_info *)

(** C9.  Whatever the configuration and the environment,
    [get_connection_info] returns a success result, with [isError] not
    set.  Its text is the two-space serialization of the object that
    holds the API URL, the GitHub flavour, whether a token is set, the
    configured owner and repository, and the URL of the git remote
    detected again, or the words not detected when detection fails.  The
    only command it runs is the query of the git remote. *)
Theorem get_connection_info_succeeds cfg w :
  run (handle cfg Call_get_connection_info) w
  = (Return
       {| text :=
            JSON.stringify2
              (JObj [("api_url", JStr (apiUrl cfg));
                     ("is_github", JBool (isGitHub cfg));
                     ("authenticated",
                      JBool (negb (String.eqb (token cfg) "")));
                     ("detected_owner", JStr (owner cfg));
                     ("detected_repo", JStr (repo cfg));
                     ("git_remote", JStr (git_remote_text (detection w)))]);
          isError := false |},
     [git_command]).
Proof.
  unfold run, handle, Tools.get_connection_info.
  rewrite bind_run, detectGitConfig_run.
  unfold ret, success, Tools.connection_info, detected_or, git_remote_text.
  destruct (detection w) as [g |] eqn:Hd; [| reflexivity].
  apply detection_remote_nonempty in Hd.
  apply String.eqb_neq in Hd. rewrite Hd. reflexivity.
Qed.

(** ** Empty and non-array responses *)

Lemma list_repos_run cfg w org page per_page :
  run (handle cfg (Call_list_repos org page per_page)) w
  = let targetOrg := js_or (opt_string org) (JStr (owner cfg)) in
    if truthy targetOrg then
      run (Tools.list_repos_from cfg
             ("/orgs/" ++ to_string targetOrg ++ "/repos")
             (default page 1%Z) (default per_page 100%Z)) w
    else if negb (String.eqb (token cfg) "") then
      run (Tools.list_repos_from cfg "/user/repos"
             (default page 1%Z) (default per_page 100%Z)) w
    else (Return (failure (JStr Tools.no_org_message)), []).
Proof.
  unfold run, handle, Tools.list_repos. simpl.
  destruct (truthy _); [reflexivity |].
  destruct (negb _); reflexivity.
Qed.

(** The response a listing tool receives decides its result. *)
Lemma http_returns_list_repos_from cfg w endpoint page per_page r :
  http_returns (Tools.list_repos_from cfg endpoint page per_page) w r ->
  fst (run (Tools.list_repos_from cfg endpoint page per_page) w)
  = match r with
    | JArr items =>
        lines <~ map_indexed Tools.format_repo 0 items ;;
        Return (success
                  (JStr ("Found " ++ of_nat (length items)
                         ++ " repositories:" ++ nl ++ nl
                         ++ join (nl ++ nl) lines)))
    | _ => Tools.api_error "API Error: " r
    end.
Proof.
  intros [cmd [Ht Hf]]. rewrite list_repos_from_run in *.
  simpl in Ht. injection Ht as <-. simpl. now rewrite Hf.
Qed.

Lemma http_returns_list_repos cfg w org page per_page r :
  http_returns (handle cfg (Call_list_repos org page per_page)) w r ->
  fst (run (handle cfg (Call_list_repos org page per_page)) w)
  = match r with
    | JArr items =>
        lines <~ map_indexed Tools.format_repo 0 items ;;
        Return (success
                  (JStr ("Found " ++ of_nat (length items)
                         ++ " repositories:" ++ nl ++ nl
                         ++ join (nl ++ nl) lines)))
    | _ => Tools.api_error "API Error: " r
    end.
Proof.
  unfold http_returns. rewrite list_repos_run. cbv zeta.
  destruct (truthy _).
  - apply http_returns_list_repos_from.
  - destruct (negb _).
    + apply http_returns_list_repos_from.
    + intros [cmd [Ht _]]. discriminate Ht.
Qed.

Lemma http_returns_list_issues cfg w o r st page per_page v :
  http_returns (handle cfg (Call_list_issues o r st page per_page)) w v ->
  fst (run (handle cfg (Call_list_issues o r st page per_page)) w)
  = match v with
    | JArr items =>
        lines <~ map_indexed Tools.format_issue 0 items ;;
        Return (success (js_or (JStr (join nl lines))
                           (JStr "No issues found.")))
    | _ => Tools.api_error "Error: " v
    end.
Proof.
  intros [cmd [Ht Hf]]. rewrite list_issues_run in *.
  simpl in Ht. injection Ht as <-. simpl. now rewrite Hf.
Qed.

Lemma http_returns_list_branches cfg w o r v :
  http_returns (handle cfg (Call_list_branches o r)) w v ->
  fst (run (handle cfg (Call_list_branches o r)) w)
  = match v with
    | JArr items =>
        names <~ map_indexed Tools.branch_name 0 items ;;
        Return (success (js_or (JStr (join nl (map Tools.join_item names)))
                           (JStr "No branches found.")))
    | _ => Tools.api_error "Error: " v
    end.
Proof.
  intros [cmd [Ht Hf]]. rewrite list_branches_run in *.
  simpl in Ht. injection Ht as <-. simpl. now rewrite Hf.
Qed.


Lemma api_error_text prefix r res :
  Tools.api_error prefix r = Return res ->
  exists s, text res = JStr (prefix ++ s).
Proof.
  unfold Tools.api_error, get. destruct (nullish r); [discriminate |].
  intros [= <-]. eexists. reflexivity.
Qed.

(** The text of a result of [list_repos] never is the fallback literal. *)
Lemma list_repos_from_text cfg w endpoint page per_page res :
  fst (run (Tools.list_repos_from cfg endpoint page per_page) w) = Return res ->
  text res <> JStr "No repositories found.".
Proof.
  rewrite list_repos_from_run. simpl.
  destruct (fetch w _) as [r |]; [| discriminate]. simpl.
  assert (Herr : Tools.api_error "API Error: " r = Return res ->
                 text res <> JStr "No repositories found.").
  { intros H. apply api_error_text in H as [s ->]. discriminate. }
  destruct r; try exact Herr.
  destruct (map_indexed Tools.format_repo 0 items); [| discriminate].
  intros [= <-]. discriminate.
Qed.

(** C10.  On an empty array [list_repos] returns the success text
    [Found 0 repositories:] followed by two newlines, and no response at
    all makes it return the fallback text [No repositories found.]: the
    left operand of [||] is never empty.  On an empty array [list_issues]
    and [list_branches] return the texts [No issues found.] and
    [No branches found.]. *)
Theorem empty_listings cfg w :
  (forall org page per_page,
      http_returns (handle cfg (Call_list_repos org page per_page)) w
        (JArr []) ->
      fst (run (handle cfg (Call_list_repos org page per_page)) w)
      = Return {| text := JStr ("Found 0 repositories:" ++ nl ++ nl);
                  isError := false |})
  /\ (forall org page per_page res,
         fst (run (handle cfg (Call_list_repos org page per_page)) w)
         = Return res ->
         text res <> JStr "No repositories found.")
  /\ (forall o r st page per_page,
         http_returns (handle cfg (Call_list_issues o r st page per_page)) w
           (JArr []) ->
         fst (run (handle cfg (Call_list_issues o r st page per_page)) w)
         = Return {| text := JStr "No issues found."; isError := false |})
  /\ (forall o r,
         http_returns (handle cfg (Call_list_branches o r)) w (JArr []) ->
         fst (run (handle cfg (Call_list_branches o r)) w)
         = Return {| text := JStr "No branches found."; isError := false |}).
Proof.
  repeat split.
  - intros org page per_page H.
    now rewrite (http_returns_list_repos _ _ _ _ _ _ H).
  - intros org page per_page res. rewrite list_repos_run. cbv zeta.
    destruct (truthy _); [apply list_repos_from_text |].
    destruct (negb _); [apply list_repos_from_text |].
    intros [= <-]. discriminate.
  - intros o r st page per_page H.
    now rewrite (http_returns_list_issues _ _ _ _ _ _ _ _ H).
  - intros o r H.
    now rewrite (http_returns_list_branches _ _ _ _ _ H).
Qed.

Lemma empty_listings_witness :
  let w := mock_world "[]" (JArr []) [] in
  let cfg := github_config in
  http_returns (handle cfg (Call_list_repos (Some "acme") None None)) w
    (JArr [])
  /\ run (handle cfg (Call_list_repos (Some "acme") None None)) w
     = (Return (success (JStr ("Found 0 repositories:" ++ nl ++ nl))),
        ["curl -s -X GET --max-time 30 -H 'Accept: application/json' -H 'Content-Type: application/json' -H 'Authorization: Bearer tok' https://api.github.com/orgs/acme/repos?page=1&per_page=100&limit=100&type=all"])
  /\ text (success (JStr ("Found 0 repositories:" ++ nl ++ nl)))
     <> JStr "No repositories found."
  /\ http_returns (handle cfg (Call_list_issues "acme" "widget" None None None))
       w (JArr [])
  /\ fst (run (handle cfg (Call_list_issues "acme" "widget" None None None)) w)
     = Return (success (JStr "No issues found."))
  /\ http_returns (handle cfg (Call_list_branches "acme" "widget")) w (JArr [])
  /\ fst (run (handle cfg (Call_list_branches "acme" "widget")) w)
     = Return (success (JStr "No branches found.")).
Proof.
  intros w cfg.
  destruct (empty_listings cfg w) as [Hrepos [Hnever [Hissues Hbranches]]].
  assert (H1 : http_returns
                 (handle cfg (Call_list_repos (Some "acme") None None)) w
                 (JArr [])).
  { eexists. split; reflexivity. }
  assert (H2 : http_returns
                 (handle cfg (Call_list_issues "acme" "widget" None None None))
                 w (JArr [])).
  { eexists. split; reflexivity. }
  assert (H3 : http_returns
                 (handle cfg (Call_list_branches "acme" "widget")) w (JArr [])).
  { eexists. split; reflexivity. }
  split; [exact H1 |].
  split; [apply injective_projections;
          [exact (Hrepos _ _ _ H1) | reflexivity] |].
  split; [exact (Hnever (Some "acme") None None _ (Hrepos _ _ _ H1)) |].
  split; [exact H2 |].
  split; [exact (Hissues _ _ _ _ _ H2) |].
  split; [exact H3 |].
  exact (Hbranches _ _ H3).
Defined.




(** A response that is the JSON literal null is no array either; reading
    its [message] raises, and the listing tool returns no result. *)
Lemma listing_null_response_raises :
  let w := mock_world "null" JNull [] in
  fst (run (handle github_config (Call_list_branches "acme" "widget")) w)
  = Throw (TypeError "Cannot read properties of null (reading 'message')").
Proof. reflexivity. Qed.

(** ** Failures of the request *)

(** The handlers themselves hold no [try]: when the command of a tool's
    request fails, or its output does not parse, the handler raises that
    very exception. *)
Lemma handler_raises_request_failure cfg w c cmd e :
  c <> Call_get_connection_info ->
  snd (run (handle cfg c) w) = [cmd] ->
  fetch w cmd = Throw e ->
  fst (run (handle cfg c) w) = Throw e.
Proof.
  intros Hc Ht Hf. destruct c.
  - revert Ht. rewrite list_repos_run. cbv zeta.
    destruct (truthy _); [| destruct (negb _)];
      try (rewrite list_repos_from_run; simpl; intros [= <-];
           now rewrite Hf).
    discriminate.
  - revert Ht. rewrite get_repo_run. simpl. intros [= <-]. now rewrite Hf.
  - revert Ht. rewrite list_issues_run. simpl. intros [= <-]. now rewrite Hf.
  - revert Ht. rewrite list_branches_run. simpl. intros [= <-].
    now rewrite Hf.
  - revert Ht. unfold handle, Tools.create_issue.
    destruct (post_run cfg w ("/repos/" ++ owner0 ++ "/" ++ repo0 ++ "/issues")
                [("title", JStr title); ("body", opt_string body)]
                (Tools.created "issue")) as [s [_ ->]].
    simpl. intros [= <-]. now rewrite Hf.
  - revert Ht. unfold handle, Tools.create_pull_request.
    destruct (post_run cfg w ("/repos/" ++ owner0 ++ "/" ++ repo0 ++ "/pulls")
                [("title", JStr title); ("head", JStr head);
                 ("base", JStr (default base "main"));
                 ("body", opt_string body)]
                (Tools.created "PR")) as [s [_ ->]].
    simpl. intros [= <-]. now rewrite Hf.
  - contradiction.
Qed.

(** C2.  When the command of a tool's request fails (a timeout, a failed
    connection), or its output does not parse as JSON, the invocation
    completes at the dispatch boundary with an error result whose text is
    the message of that failure; and no invocation at all raises across
    the boundary. *)
Theorem transport_failure_is_error_result cfg c w :
  (exists res, fst (run (dispatch cfg c) w) = Return res)
  /\ (forall cmd e,
         c <> Call_get_connection_info ->
         snd (run (handle cfg c) w) = [cmd] ->
         (execSync w cmd = Throw e
          \/ exists out, execSync w cmd = Return out
                         /\ JSON_parse w out = Throw e) ->
         run (dispatch cfg c) w
         = (Return {| text := JStr (message e); isError := true |}, [cmd])).
Proof.
  split.
  - unfold run, dispatch, try_catch.
    destruct (handle cfg c w []) as [[res | e] t]; eexists; reflexivity.
  - intros cmd e Hc Ht Hfail.
    assert (Hf : fetch w cmd = Throw e).
    { unfold fetch. destruct Hfail as [-> | [out [-> Hp]]];
        [reflexivity | exact Hp]. }
    pose proof (handler_raises_request_failure cfg w c cmd e Hc Ht Hf) as Hr.
    unfold run, dispatch, try_catch in *.
    destruct (handle cfg c w []) as [res t]. simpl in Ht, Hr.
    subst res t. reflexivity.
Qed.

Lemma transport_failure_is_error_result_witness :
  let w := git_world (Throw (Error "Command failed")) [] in
  let c := Call_get_repo "acme" "widget" in
  let cmd :=
    "curl -s -X GET --max-time 30 -H 'Accept: application/json' -H 'Content-Type: application/json' https://git.example.org/api/v1/repos/acme/widget" in
  c <> Call_get_connection_info
  /\ snd (run (handle bare_config c) w) = [cmd]
  /\ execSync w cmd = Throw (Error "Command failed")
  /\ run (dispatch bare_config c) w
     = (Return (failure (JStr "Command failed")), [cmd]).
Proof.
  intros w c cmd.
  split; [discriminate |]. split; [reflexivity |]. split; [reflexivity |].
  refine (proj2 (transport_failure_is_error_result bare_config c w)
            cmd (Error "Command failed") _ eq_refl (or_introl eq_refl)).
  discriminate.
Defined.

(** ** More on the detection of the remote *)

Lemma all_chars_app p a b :
  all_chars p (a ++ b) = all_chars p a && all_chars p b.
Proof.
  induction a as [| c a IH]; simpl; [reflexivity |].
  now rewrite IH, andb_assoc.
Qed.




(** X1.  When the expression matches, its two captures are the owner and
    the repository name at the end of the URL: the URL is some prefix, a
    slash or a colon, the first capture (non-empty, without a slash), a
    slash, the second capture (non-empty, without a slash or a dot) and,
    optionally, [.git]. *)
Theorem remote_captures_sound s o r :
  Remote.match_remote s = Some (o, r) ->
  owner_segment o = true /\ repo_segment r = true
  /\ exists pre c suf,
       s = pre ++ String c (o ++ "/" ++ r ++ suf)
       /\ (Remote.is_slash c || Remote.is_colon c) = true
       /\ Remote.suffix_ok suf = true.
Proof.
  induction s as [| d s IH]; [discriminate |].
  rewrite match_remote_cons.
  assert (Hrec : Remote.match_remote s = Some (o, r) ->
                 owner_segment o = true /\ repo_segment r = true
                 /\ exists pre c suf,
                      String d s = pre ++ String c (o ++ "/" ++ r ++ suf)
                      /\ (Remote.is_slash c || Remote.is_colon c) = true
                      /\ Remote.suffix_ok suf = true).
  { intros H. destruct (IH H) as [Ho [Hr [pre [c [suf [-> Hrest]]]]]].
    split; [exact Ho |]. split; [exact Hr |].
    exists (String d pre), c, suf. split; [reflexivity | exact Hrest]. }
  destruct (Remote.is_slash d || Remote.is_colon d) eqn:Hd; [| exact Hrec].
  destruct (Remote.match_owner s) as [[o' r'] |] eqn:Hm; [| exact Hrec].
  intros [= <- <-].
  destruct (match_owner_sound _ _ _ Hm) as [Ho [Hr [suf [-> Hsuf]]]].
  split; [exact Ho |]. split; [exact Hr |].
  exists "", d, suf. repeat split; assumption.
Qed.

Lemma remote_captures_sound_witness :
  Remote.match_remote "ssh://git@host:2222/acme/widget.git"
  = Some ("acme", "widget")
  /\ owner_segment "acme" = true /\ repo_segment "widget" = true
  /\ exists pre c suf,
       "ssh://git@host:2222/acme/widget.git"
       = pre ++ String c ("acme" ++ "/" ++ "widget" ++ suf)
       /\ (Remote.is_slash c || Remote.is_colon c) = true
       /\ Remote.suffix_ok suf = true.
Proof.
  split; [reflexivity |].
  exact (remote_captures_sound "ssh://git@host:2222/acme/widget.git"
           "acme" "widget" eq_refl).
Defined.









Lemma ascii_not_wide a b c :
  Nat.ltb (nat_of_ascii a) 128 = true ->
  is_space2 a b = false /\ is_space3 a b c = false.
Proof.
  intros H.
  destruct a as [[] [] [] [] [] [] [] []];
    try (vm_compute in H; discriminate H); split; reflexivity.
Qed.

Lemma trim_left_only_space ws x :
  only_space ws = true -> trim_left (ws ++ x) = trim_left x.
Proof.
  intros Hws. induction ws as [| c ws IH]; [reflexivity |].
  unfold only_space in Hws. simpl in Hws.
  apply andb_true_iff in Hws as [Hc Hws].
  change (String c ws ++ x) with (String c (ws ++ x)).
  cbn [trim_left]. rewrite Hc. exact (IH Hws).
Qed.

Lemma trim_left_word u x :
  ascii_word u = true -> u <> "" -> trim_left (u ++ x) = u ++ x.
Proof.
  intros Hu Hne. destruct u as [| a u]; [now elim Hne |].
  unfold ascii_word in Hu. simpl in Hu.
  apply andb_true_iff in Hu as [Ha _].
  apply andb_true_iff in Ha as [Hascii Ha]. apply negb_true_iff in Ha.
  change (String a u ++ x) with (String a (u ++ x)).
  cbn [trim_left]. rewrite Ha.
  destruct (u ++ x) as [| b s2]; [reflexivity |].
  rewrite (proj1 (ascii_not_wide a b b Hascii)).
  destruct s2 as [| c s3]; [reflexivity |].
  now rewrite (proj2 (ascii_not_wide a b c Hascii)).
Qed.

Lemma blank_only_space ws : only_space ws = true -> blank ws = true.
Proof.
  intros Hws. unfold blank.
  induction ws as [| c ws IH]; [reflexivity |].
  unfold only_space in Hws. simpl in Hws.
  apply andb_true_iff in Hws as [Hc Hws].
  cbn [trim_left]. rewrite Hc. exact (IH Hws).
Qed.

Lemma trim_right_word u ws :
  ascii_word u = true -> only_space ws = true -> trim_right (u ++ ws) = u.
Proof.
  intros Hu Hws. induction u as [| c u IH].
  - destruct ws as [| d ws]; [reflexivity |].
    change ("" ++ String d ws) with (String d ws).
    cbn [trim_right]. now rewrite (blank_only_space _ Hws).
  - change (String c u ++ ws) with (String c (u ++ ws)).
    cbn [trim_right].
    assert (Hb : blank (String c (u ++ ws)) = false).
    { unfold blank.
      change (String c (u ++ ws)) with (String c u ++ ws).
      rewrite (trim_left_word _ _ Hu); [reflexivity | discriminate]. }
    rewrite Hb. f_equal. apply IH.
    unfold ascii_word in *. simpl in Hu.
    now apply andb_true_iff in Hu as [_ Hu].
Qed.

(** X5.  The white space around the output of the git query is ignored:
    when the output is a URL of ASCII characters other than white space,
    surrounded by ASCII white space (the newline git prints), and the
    expression matches the URL, [detectGitConfig] returns the two
    captures and the URL itself, and runs the git query only. *)
Theorem detection_ignores_surrounding_space w before url after o r :
  execSync w git_command = Return (before ++ url ++ after) ->
  only_space before = true -> ascii_word url = true ->
  only_space after = true ->
  Remote.match_remote url = Some (o, r) ->
  run detectGitConfig w
  = (Return (Some {| git_owner := o; git_repo := r; remoteUrl := url |}),
     [git_command]).
Proof.
  intros Hexec Hb Hu Ha Hm.
  assert (Hne : url <> "") by exact (match_remote_nonempty _ _ _ Hm).
  assert (Htrim : trim (before ++ url ++ after) = url).
  { unfold trim.
    rewrite (trim_left_only_space _ _ Hb), (trim_left_word _ _ Hu Hne).
    now apply trim_right_word. }
  unfold run. rewrite detectGitConfig_run. unfold detection.
  now rewrite Hexec, Htrim, Hm.
Qed.

Lemma detection_ignores_surrounding_space_witness :
  let w := git_world (Return (" " ++ "https://github.com/acme/widget.git"
                              ++ nl)) [] in
  execSync w git_command
  = Return (" " ++ "https://github.com/acme/widget.git" ++ nl)
  /\ only_space " " = true
  /\ ascii_word "https://github.com/acme/widget.git" = true
  /\ only_space nl = true
  /\ Remote.match_remote "https://github.com/acme/widget.git"
     = Some ("acme", "widget")
  /\ run detectGitConfig w
     = (Return (Some {| git_owner := "acme"; git_repo := "widget";
                        remoteUrl := "https://github.com/acme/widget.git" |}),
        [git_command]).
Proof.
  intros w. repeat (split; [reflexivity |]).
  exact (detection_ignores_surrounding_space w " "
           "https://github.com/acme/widget.git" nl "acme" "widget"
           eq_refl eq_refl eq_refl eq_refl eq_refl).
Defined.

(** White space outside ASCII is stripped as well: a no-break space and a
    line separator after the URL do not enter the repository name. *)
Lemma detection_strips_unicode_space :
  let nbsp := String (ascii_of_nat 194) (chr (ascii_of_nat 160)) in
  let line_separator :=
    String (ascii_of_nat 226)
      (String (ascii_of_nat 128) (chr (ascii_of_nat 168))) in
  let w := git_world (Return ("git@host:acme/widget.git" ++ nbsp
                              ++ line_separator ++ nl)) [] in
  run detectGitConfig w
  = (Return (Some {| git_owner := "acme"; git_repo := "widget";
                     remoteUrl := "git@host:acme/widget.git" |}),
     [git_command]).
Proof. reflexivity. Qed.

(** ** More on the configuration *)

(** X6.  A remote that the expression matches decides the owner and the
    repository of the configuration: the variables GITEA_OWNER and
    GITEA_REPO are not consulted then, whatever they hold. *)
Theorem detected_remote_overrides_variables w out o r :
  execSync w git_command = Return out ->
  Remote.match_remote (trim out) = Some (o, r) ->
  exists cfg,
    run getApiConfig w = (Return cfg, [git_command])
    /\ owner cfg = o /\ repo cfg = r.
Proof.
  intros Hexec Hm. rewrite getApiConfig_run. eexists.
  split; [reflexivity |]. simpl. unfold detection. rewrite Hexec, Hm.
  destruct (match_owner_or_repo_nonempty _ _ _ Hm) as [Ho Hr].
  unfold detected_or. simpl.
  apply String.eqb_neq in Ho, Hr. now rewrite Ho, Hr.
Qed.

Lemma detected_remote_overrides_variables_witness :
  let w := git_world (Return ("git@host:acme/widget.git" ++ nl))
             [("GITEA_OWNER", "other"); ("GITEA_REPO", "thing")] in
  execSync w git_command = Return ("git@host:acme/widget.git" ++ nl)
  /\ Remote.match_remote (trim ("git@host:acme/widget.git" ++ nl))
     = Some ("acme", "widget")
  /\ exists cfg,
       run getApiConfig w = (Return cfg, [git_command])
       /\ owner cfg = "acme" /\ repo cfg = "widget".
Proof.
  intros w. repeat (split; [reflexivity |]).
  exact (detected_remote_overrides_variables w _ "acme" "widget"
           eq_refl eq_refl).
Defined.

Lemma env_or_nonempty v d : d <> "" -> env_or v d <> "".
Proof.
  intros Hd. unfold env_or. destruct v as [s |]; [| exact Hd].
  destruct (String.eqb s "") eqn:Hs; [exact Hd |].
  now apply String.eqb_neq.
Qed.

(** X7.  In every environment [getApiConfig] returns a configuration: it
    never raises, and the only command it runs is the git query.  The API
    URL of the configuration is never empty; when GITEA_API_URL is unset
    or empty it is the public GitHub endpoint and the flavour is GitHub. *)
Theorem getApiConfig_total w :
  exists cfg,
    run getApiConfig w = (Return cfg, [git_command])
    /\ apiUrl cfg <> ""
    /\ (process_env w "GITEA_API_URL" = None
        \/ process_env w "GITEA_API_URL" = Some "" ->
        apiUrl cfg = "https://api.github.com" /\ isGitHub cfg = true).
Proof.
  rewrite getApiConfig_run. eexists. split; [reflexivity |]. simpl. split.
  - apply env_or_nonempty. discriminate.
  - intros [-> | ->]; split; reflexivity.
Qed.

Lemma getApiConfig_total_witness :
  let w := git_world (Throw (Error "not a git repository"))
             [("GITEA_API_URL", "")] in
  (process_env w "GITEA_API_URL" = None
   \/ process_env w "GITEA_API_URL" = Some "")
  /\ exists cfg,
       run getApiConfig w = (Return cfg, [git_command])
       /\ apiUrl cfg = "https://api.github.com" /\ isGitHub cfg = true.
Proof.
  intros w. split; [right; reflexivity |].
  destruct (getApiConfig_total w) as [cfg [Hrun [_ Hdefault]]].
  exists cfg. split; [exact Hrun |].
  exact (Hdefault (or_intror eq_refl)).
Defined.

(** X8.  The flavour follows the remote as well as the API URL: when the
    remote that is detected holds [github.com], the configuration is of
    the GitHub flavour even though GITEA_API_URL names another server, so
    that requests to that server carry a Bearer header. *)
Theorem github_remote_sets_flavour w out o r :
  execSync w git_command = Return out ->
  Remote.match_remote (trim out) = Some (o, r) ->
  includes (trim out) "github.com" = true ->
  exists cfg,
    fst (run getApiConfig w) = Return cfg
    /\ apiUrl cfg = env_or (process_env w "GITEA_API_URL")
                      "https://api.github.com"
    /\ isGitHub cfg = true.
Proof.
  intros Hexec Hm Hinc. rewrite getApiConfig_run. eexists.
  split; [reflexivity |]. simpl. split; [reflexivity |].
  unfold detection. rewrite Hexec, Hm. simpl. rewrite Hinc.
  apply orb_true_r.
Qed.

Lemma github_remote_sets_flavour_witness :
  let w := git_world (Return ("https://github.com/acme/widget.git" ++ nl))
             [("GITEA_API_URL", "https://gitea.example.org/api/v1");
              ("GITEA_TOKEN", "tok")] in
  run getApiConfig w
  = (Return {| apiUrl := "https://gitea.example.org/api/v1"; token := "tok";
               isGitHub := true; owner := "acme"; repo := "widget" |},
     [git_command])
  /\ exists cfg,
       fst (run getApiConfig w) = Return cfg
       /\ apiUrl cfg = "https://gitea.example.org/api/v1"
       /\ isGitHub cfg = true.
Proof.
  intros w. split; [reflexivity |].
  exact (github_remote_sets_flavour w _ "acme" "widget"
           eq_refl eq_refl eq_refl).
Defined.

(** X9.  The token of the configuration is GITEA_TOKEN whenever that
    variable is set and not empty, whatever GITHUB_TOKEN holds; an empty
    GITEA_TOKEN counts as unset, and the token is then GITHUB_TOKEN, or
    the empty string when that one is unset too. *)
Theorem token_precedence w :
  exists cfg,
    fst (run getApiConfig w) = Return cfg
    /\ (forall t, process_env w "GITEA_TOKEN" = Some t -> t <> "" ->
                  token cfg = t)
    /\ (process_env w "GITEA_TOKEN" = None
        \/ process_env w "GITEA_TOKEN" = Some "" ->
        token cfg = match process_env w "GITHUB_TOKEN" with
                    | Some t => t
                    | None => ""
                    end).
Proof.
  rewrite getApiConfig_run. eexists. split; [reflexivity |]. simpl. split.
  - intros t -> Ht. simpl. apply String.eqb_neq in Ht. now rewrite Ht.
  - intros [-> | ->]; simpl;
      destruct (process_env w "GITHUB_TOKEN") as [t |]; simpl;
        try reflexivity;
        destruct (String.eqb t "") eqn:Ht; try reflexivity;
          apply String.eqb_eq in Ht; now subst.
Qed.

Lemma token_precedence_witness :
  let w := git_world (Throw (Error "not a git repository"))
             [("GITEA_TOKEN", ""); ("GITHUB_TOKEN", "ghp")] in
  (process_env w "GITEA_TOKEN" = None
   \/ process_env w "GITEA_TOKEN" = Some "")
  /\ exists cfg, fst (run getApiConfig w) = Return cfg /\ token cfg = "ghp".
Proof.
  intros w. split; [right; reflexivity |].
  destruct (token_precedence w) as [cfg [Hrun [_ Hfallback]]].
  exists cfg. split; [exact Hrun |].
  exact (Hfallback (or_intror eq_refl)).
Defined.

(** ** More on the request *)

Lemma payload_of_total data : exists payload, payload_of data = Return payload.
Proof.
  unfold payload_of, JSON.stringify.
  destruct data as [| | [] | n | s | items | props]; simpl;
    try (eexists; reflexivity).
  destruct (negb (Z.eqb n 0)); eexists; reflexivity.
  destruct (negb (String.eqb s "")); eexists; reflexivity.
Qed.


Lemma includes_head c s : includes (String c s) (chr c) = true.
Proof. simpl. now rewrite Ascii.eqb_refl. Qed.

(** X11.  The serialization of an object always starts with an opening
    brace, so the body of every request of [create_issue] and
    [create_pull_request] is placed between single quotes on the command
    line; so is the Authorization header, which holds a space. *)
Theorem body_and_header_are_quoted props tok gh :
  (exists s, JSON.stringify (JObj props) = JStr s
             /\ shell_word s = "'" ++ s ++ "'")
  /\ shell_word (auth_header tok gh) = "'" ++ auth_header tok gh ++ "'".
Proof.
  split.
  - unfold JSON.stringify. simpl. eexists. split; [reflexivity |].
    unfold shell_word, JSON.wrap.
    match goal with
    | |- context [flat_map ?f props] => destruct (flat_map f props)
    end.
    + reflexivity.
    + rewrite String.eqb_refl.
      change ("{" ++ ?x) with (String "{" x).
      rewrite (includes_head "{"). now rewrite orb_true_r.
  - unfold shell_word, auth_header.
    change ("Authorization: " ++ ?x) with (String "A" ("uthorization: " ++ x)).
    replace (includes _ " ") with true; [reflexivity |].
    symmetry. simpl. reflexivity.
Qed.











Lemma encode_char_safe c :
  all_chars query_char
    (if URLSearchParams.unreserved c then chr c
     else if Nat.eqb (nat_of_ascii c) 32 then "+"
          else "%" ++ hex2 true c) = true.
Proof. destruct c as [[] [] [] [] [] [] [] []]; reflexivity. Qed.

Lemma encode_safe s : all_chars query_char (URLSearchParams.encode s) = true.
Proof.
  induction s as [| c s IH]; [reflexivity |].
  cbn [URLSearchParams.encode]. rewrite all_chars_app, IH, andb_true_r.
  apply encode_char_safe.
Qed.

Lemma all_chars_join p sep l :
  all_chars p sep = true ->
  Forall (fun x => all_chars p x = true) l ->
  all_chars p (join sep l) = true.
Proof.
  intros Hsep H. induction H as [| x l Hx Hl IH]; [reflexivity |].
  destruct l as [| y l]; [exact Hx |].
  change (join sep (x :: y :: l)) with (x ++ sep ++ join sep (y :: l)).
  now rewrite !all_chars_app, Hx, Hsep, IH.
Qed.

(** X14.  Whatever the parameters of a request are, the query string
    that [apiCall] appends holds unreserved characters, plus signs,
    percent signs and the separators [&] and [=] only: no value brings a
    space, a quote, a brace or any other character into the URL. *)
Theorem query_string_characters params :
  all_chars query_char (URLSearchParams.toString (search_params params))
  = true.
Proof.
  unfold URLSearchParams.toString.
  apply all_chars_join; [reflexivity |].
  apply Forall_forall. intros x Hx.
  apply in_map_iff in Hx as [[k v] [<- _]]. cbn [fst snd].
  now rewrite !all_chars_app, !encode_safe.
Qed.

(** X15.  Without a token [apiCall] sends no Authorization header: the
    command line holds the method, the time limit, the two fixed headers,
    the body if there is one, and the URL.  With a token the header is
    [Authorization: token <token>] for the Gitea flavour and
    [Authorization: Bearer <token>] for the GitHub flavour. *)
Theorem request_authorization cfg method endpoint data params w :
  exists payload,
    payload_of data = Return payload
    /\ let body := match payload with Some s => ["-d"; s] | None => [] end in
       let url := request_url cfg endpoint params in
       let trace := snd (run (apiCall cfg method endpoint data params) w) in
       (token cfg = "" ->
        trace = [shell_command (base_args method ++ body ++ [url])])
       /\ (token cfg <> "" -> isGitHub cfg = false ->
           trace = [shell_command
                      (base_args method
                       ++ ["-H"; "Authorization: token " ++ token cfg]
                       ++ body ++ [url])])
       /\ (token cfg <> "" -> isGitHub cfg = true ->
           trace = [shell_command
                      (base_args method
                       ++ ["-H"; "Authorization: Bearer " ++ token cfg]
                       ++ body ++ [url])]).
Proof.
  destruct (payload_of_total data) as [payload Hp].
  exists payload. split; [exact Hp |]. cbv zeta.
  unfold run. rewrite (apiCall_run _ _ _ _ _ _ _ _ Hp). cbn [snd app].
  unfold request_command, curl_args, auth_header.
  repeat split.
  - intros ->. reflexivity.
  - intros Ht ->. apply String.eqb_neq in Ht. now rewrite Ht.
  - intros Ht ->. apply String.eqb_neq in Ht. now rewrite Ht.
Qed.

Lemma request_authorization_witness :
  let cfg := {| apiUrl := "https://git.example.org/api/v1"; token := "s3";
                isGitHub := false; owner := ""; repo := "" |} in
  let w := mock_world "{}" (JObj []) [] in
  token cfg <> "" /\ isGitHub cfg = false
  /\ token bare_config = ""
  /\ snd (run (apiCall cfg "GET" "/repos/acme/widget" JNull None) w)
     = ["curl -s -X GET --max-time 30 -H 'Accept: application/json' -H 'Content-Type: application/json' -H 'Authorization: token s3' https://git.example.org/api/v1/repos/acme/widget"]
  /\ snd (run (apiCall bare_config "GET" "/repos/acme/widget" JNull None) w)
     = ["curl -s -X GET --max-time 30 -H 'Accept: application/json' -H 'Content-Type: application/json' https://git.example.org/api/v1/repos/acme/widget"].
Proof.
  intros cfg w.
  split; [discriminate |]. split; [reflexivity |]. split; [reflexivity |].
  split.
  - destruct (request_authorization cfg "GET" "/repos/acme/widget" JNull
                None w) as [payload [Hp [_ [Hgitea _]]]].
    injection Hp as <-.
    exact (Hgitea ltac:(discriminate) eq_refl).
  - destruct (request_authorization bare_config "GET" "/repos/acme/widget"
                JNull None w) as [payload [Hp [Hnone _]]].
    injection Hp as <-.
    exact (Hnone eq_refl).
Defined.

(** ** How many commands, and which *)

Lemma create_issue_run cfg w o r title body :
  exists payload,
    run (handle cfg (Call_create_issue o r title body)) w
    = (resp <~ fetch w (request_command cfg "POST"
                          ("/repos/" ++ o ++ "/" ++ r ++ "/issues")
                          (Some payload) None) ;;
       Tools.created "issue" resp,
       [request_command cfg "POST" ("/repos/" ++ o ++ "/" ++ r ++ "/issues")
          (Some payload) None])
    /\ JSON.stringify (JObj [("title", JStr title); ("body", opt_string body)])
       = JStr payload.
Proof.
  unfold handle, Tools.create_issue.
  destruct (post_run cfg w ("/repos/" ++ o ++ "/" ++ r ++ "/issues")
              [("title", JStr title); ("body", opt_string body)]
              (Tools.created "issue")) as [s [Hs Hrun]].
  exists s. split; [exact Hrun | exact Hs].
Qed.

Lemma create_pull_request_run cfg w o r title head base body :
  exists payload,
    run (handle cfg (Call_create_pull_request o r title head base body)) w
    = (resp <~ fetch w (request_command cfg "POST"
                          ("/repos/" ++ o ++ "/" ++ r ++ "/pulls")
                          (Some payload) None) ;;
       Tools.created "PR" resp,
       [request_command cfg "POST" ("/repos/" ++ o ++ "/" ++ r ++ "/pulls")
          (Some payload) None])
    /\ JSON.stringify
         (JObj [("title", JStr title); ("head", JStr head);
                ("base", JStr (default base "main"));
                ("body", opt_string body)])
       = JStr payload.
Proof.
  unfold handle, Tools.create_pull_request.
  destruct (post_run cfg w ("/repos/" ++ o ++ "/" ++ r ++ "/pulls")
              [("title", JStr title); ("head", JStr head);
               ("base", JStr (default base "main"));
               ("body", opt_string body)]
              (Tools.created "PR")) as [s [Hs Hrun]].
  exists s. split; [exact Hrun | exact Hs].
Qed.





(** ** More on the results of the tools *)

Lemma map_indexed_raises {B} (f : value -> nat -> completion B) i items :
  (forall x n, nullish x = true -> exists m, f x n = Throw (TypeError m)) ->
  (forall x n, nullish x = false -> exists y, f x n = Return y) ->
  existsb nullish items = true ->
  exists m, map_indexed f i items = Throw (TypeError m).
Proof.
  intros Hbad Hgood. revert i.
  induction items as [| x items IH]; intros i H; [discriminate |].
  simpl in H. simpl. destruct (nullish x) eqn:Hx.
  - destruct (Hbad x i Hx) as [m ->]. now exists m.
  - destruct (Hgood x i Hx) as [y ->]. simpl in H.
    destruct (IH (S i) H) as [m ->]. now exists m.
Qed.

Lemma get_nullish v k :
  nullish v = true -> exists m, get v k = Throw (TypeError m).
Proof. unfold get. intros ->. eexists. reflexivity. Qed.

(** X18.  A listing tool gives no partial listing: when its response is
    an array that holds null (or undefined) anywhere, the handler raises
    a TypeError and returns no result, whatever the other elements are. *)
Theorem listing_null_element_raises cfg w c items :
  listing c = true ->
  http_returns (handle cfg c) w (JArr items) ->
  existsb nullish items = true ->
  exists m, fst (run (handle cfg c) w) = Throw (TypeError m).
Proof.
  intros Hl Hr Hn. destruct c; try discriminate Hl.
  - rewrite (http_returns_list_repos _ _ _ _ _ _ Hr).
    destruct (map_indexed_raises Tools.format_repo 0 items) as [m ->];
      [| | exact Hn | now exists m].
    + intros x n Hx. unfold Tools.format_repo.
      destruct (get_nullish x "private" Hx) as [m ->]. now exists m.
    + intros x n Hx. unfold Tools.format_repo.
      rewrite !(get_defined _ _ Hx). eexists. reflexivity.
  - rewrite (http_returns_list_issues _ _ _ _ _ _ _ _ Hr).
    destruct (map_indexed_raises Tools.format_issue 0 items) as [m ->];
      [| | exact Hn | now exists m].
    + intros x n Hx. unfold Tools.format_issue.
      destruct (get_nullish x "number" Hx) as [m ->]. now exists m.
    + intros x n Hx. unfold Tools.format_issue.
      rewrite !(get_defined _ _ Hx). eexists. reflexivity.
  - rewrite (http_returns_list_branches _ _ _ _ _ Hr).
    destruct (map_indexed_raises Tools.branch_name 0 items) as [m ->];
      [| | exact Hn | now exists m].
    + intros x n Hx. unfold Tools.branch_name. now apply get_nullish.
    + intros x n Hx. unfold Tools.branch_name.
      rewrite (get_defined _ _ Hx). eexists. reflexivity.
Qed.

Lemma listing_null_element_raises_witness :
  let items := [JObj [("number", JNum 1); ("title", JStr "First");
                      ("state", JStr "open")]; JNull] in
  let w := mock_world "ok" (JArr items) [] in
  let c := Call_list_issues "acme" "widget" None None None in
  listing c = true
  /\ http_returns (handle github_config c) w (JArr items)
  /\ existsb nullish items = true
  /\ exists m, fst (run (handle github_config c) w) = Throw (TypeError m).
Proof.
  intros items w c.
  assert (H : http_returns (handle github_config c) w (JArr items)).
  { eexists. split; reflexivity. }
  split; [reflexivity |]. split; [exact H |]. split; [reflexivity |].
  exact (listing_null_element_raises github_config w c items
           eq_refl H eq_refl).
Defined.

Lemma branch_names_defined items n :
  forallb (fun b => negb (nullish b)) items = true ->
  map_indexed Tools.branch_name n items
  = Return (map (fun b => prop b "name") items).
Proof.
  revert n. induction items as [| b items IH]; intros n H; [reflexivity |].
  simpl in H. apply andb_true_iff in H as [Hb Hrest].
  apply negb_true_iff in Hb.
  simpl. unfold Tools.branch_name at 1.
  rewrite (get_defined _ _ Hb). simpl. now rewrite (IH _ Hrest).
Qed.

Lemma join_nonempty sep x l : x <> "" -> join sep (x :: l) <> "".
Proof.
  intros Hx. destruct l as [| y l]; [exact Hx |].
  change (join sep (x :: y :: l)) with (x ++ sep ++ join sep (y :: l)).
  destruct x; [now elim Hx | discriminate].
Qed.

Lemma join_item_strings names :
  map Tools.join_item (map JStr names) = names.
Proof.
  induction names as [| n names IH]; simpl; [reflexivity | now rewrite IH].
Qed.

(** X19.  When the response of [list_branches] is an array of branches
    that all carry a non-empty string as their name, the text of the
    success result is exactly these names, one per line, in the order of
    the response. *)
Theorem list_branches_names cfg w o r items names :
  http_returns (handle cfg (Call_list_branches o r)) w (JArr items) ->
  forallb (fun b => negb (nullish b)) items = true ->
  map (fun b => prop b "name") items = map JStr names ->
  names <> [] -> Forall (fun n => n <> "") names ->
  fst (run (handle cfg (Call_list_branches o r)) w)
  = Return {| text := JStr (join nl names); isError := false |}.
Proof.
  intros Hr Hdef Hnames Hne Hall.
  rewrite (http_returns_list_branches _ _ _ _ _ Hr).
  rewrite (branch_names_defined _ _ Hdef), Hnames. cbn [cbind].
  rewrite join_item_strings.
  unfold js_or, success. cbn [truthy].
  destruct names as [| n names]; [now elim Hne |].
  apply Forall_inv in Hall.
  pose proof (join_nonempty nl n names Hall) as Hj.
  apply String.eqb_neq in Hj. now rewrite Hj.
Qed.

Lemma list_branches_names_witness :
  let items := [JObj [("name", JStr "main"); ("protected", JBool true)];
                JObj [("name", JStr "dev")]] in
  let w := mock_world "ok" (JArr items) [] in
  http_returns (handle github_config (Call_list_branches "acme" "widget")) w
    (JArr items)
  /\ forallb (fun b => negb (nullish b)) items = true
  /\ map (fun b => prop b "name") items = map JStr ["main"; "dev"]
  /\ ["main"; "dev"] <> []
  /\ Forall (fun n => n <> "") ["main"; "dev"]
  /\ fst (run (handle github_config (Call_list_branches "acme" "widget")) w)
     = Return (success (JStr ("main" ++ nl ++ "dev"))).
Proof.
  intros items w.
  assert (H : http_returns
                (handle github_config (Call_list_branches "acme" "widget")) w
                (JArr items)).
  { eexists. split; reflexivity. }
  assert (Hall : Forall (fun n => n <> "") ["main"; "dev"]).
  { repeat constructor; discriminate. }
  split; [exact H |]. split; [reflexivity |]. split; [reflexivity |].
  split; [discriminate |]. split; [exact Hall |].
  exact (list_branches_names github_config w "acme" "widget" items
           ["main"; "dev"] H eq_refl eq_refl ltac:(discriminate) Hall).
Defined.









(** X23.  Only the listing tools ever set [isError]: whatever the
    response is, a result that [get_repo], [create_issue],
    [create_pull_request] or [get_connection_info] returns has [isError]
    not set. *)
Theorem only_listing_tools_flag_errors cfg w c res :
  listing c = false ->
  fst (run (handle cfg c) w) = Return res ->
  isError res = false.
Proof.
  intros Hl. destruct c; try discriminate Hl.
  - rewrite get_repo_run. cbn [fst].
    destruct (fetch w _); [| discriminate]. now intros [= <-].
  - destruct (create_issue_run cfg w owner0 repo0 title body) as [s [-> _]].
    cbn [fst]. destruct (fetch w _) as [resp |]; [| discriminate].
    cbn [cbind]. unfold Tools.created, get.
    destruct (nullish resp); [discriminate |]. now intros [= <-].
  - destruct (create_pull_request_run cfg w owner0 repo0 title head base body)
      as [s [-> _]].
    cbn [fst]. destruct (fetch w _) as [resp |]; [| discriminate].
    cbn [cbind]. unfold Tools.created, get.
    destruct (nullish resp); [discriminate |]. now intros [= <-].
  - unfold run, handle, Tools.get_connection_info.
    rewrite bind_run, detectGitConfig_run. now intros [= <-].
Qed.

Lemma only_listing_tools_flag_errors_witness :
  let w := mock_world "ok" not_found [] in
  let c := Call_get_repo "acme" "widget" in
  listing c = false
  /\ fst (run (handle bare_config c) w)
     = Return (success (JSON.stringify2 not_found))
  /\ isError (success (JSON.stringify2 not_found)) = false.
Proof.
  intros w c. split; [reflexivity |]. split; [reflexivity |].
  exact (only_listing_tools_flag_errors bare_config w c
           (success (JSON.stringify2 not_found)) eq_refl eq_refl).
Defined.



Lemma env_or_unset w name d : unset w name -> env_or (process_env w name) d = d.
Proof. intros [-> | ->]; reflexivity. Qed.

(** X25.  Out of the box nothing is listed: in an environment without a
    remote of the trailing shape and with GITEA_OWNER, GITEA_TOKEN and
    GITHUB_TOKEN unset or empty, the configuration that [getApiConfig]
    resolves makes [list_repos], called without an organisation, return
    its error result without running any command. *)
Theorem unconfigured_list_repos w page per_page :
  (forall out,
      execSync w git_command = Return out -> ~ remote_shape (trim out)) ->
  unset w "GITEA_OWNER" -> unset w "GITEA_TOKEN" -> unset w "GITHUB_TOKEN" ->
  exists cfg,
    fst (run getApiConfig w) = Return cfg
    /\ run (handle cfg (Call_list_repos None page per_page)) w
       = (Return {| text := JStr Tools.no_org_message; isError := true |},
          []).
Proof.
  intros Hno Howner Htok Htok2.
  assert (Hd : detection w = None).
  { unfold detection. destruct (execSync w git_command) as [out |] eqn:He;
      [| reflexivity].
    now rewrite (no_remote_shape _ (Hno out eq_refl)). }
  rewrite getApiConfig_run. eexists. split; [reflexivity |].
  rewrite list_repos_run. cbv zeta. cbn [owner token].
  rewrite Hd. cbn [detected_or].
  rewrite (env_or_unset _ _ _ Howner), (env_or_unset _ _ _ Htok),
    (env_or_unset _ _ _ Htok2).
  reflexivity.
Qed.

Lemma unconfigured_list_repos_witness :
  let w := git_world (Throw (Error "not a git repository"))
             [("GITEA_TOKEN", ""); ("GITEA_REPO", "widget")] in
  unset w "GITEA_OWNER" /\ unset w "GITEA_TOKEN" /\ unset w "GITHUB_TOKEN"
  /\ exists cfg,
       fst (run getApiConfig w) = Return cfg
       /\ run (handle cfg (Call_list_repos None None None)) w
          = (Return (failure (JStr Tools.no_org_message)), []).
Proof.
  intros w.
  assert (H1 : unset w "GITEA_OWNER") by (left; reflexivity).
  assert (H2 : unset w "GITEA_TOKEN") by (right; reflexivity).
  assert (H3 : unset w "GITHUB_TOKEN") by (left; reflexivity).
  split; [exact H1 |]. split; [exact H2 |]. split; [exact H3 |].
  refine (unconfigured_list_repos w None None _ H1 H2 H3).
  intros out Hout. discriminate Hout.
Defined.




(** ** The command line and the shell *)

(** [execSync] hands the command line to a shell.  [shell_word] puts an
    argument between single quotes when it holds a space or an opening
    brace, and leaves every other argument as it is, whatever characters
    it holds; an argument between quotes is not escaped. *)

(** C4.  In the scenario of the claim, [list_issues] hands one command
    line to [execSync].  Its last argument is the URL with the four query
    parameters; [shell_word] leaves it without quotes, so the three
    ampersands of the query string stand bare on the command line. *)
Theorem list_issues_url_unquoted w :
  let url :=
    "https://api.github.com/repos/acme/widget/issues?state=closed&page=1&per_page=20&limit=20" in
  snd (run (handle github_config
              (Call_list_issues "acme" "widget" (Some st_closed) None None))
         w)
  = ["curl -s -X GET --max-time 30 -H 'Accept: application/json' -H 'Content-Type: application/json' -H 'Authorization: Bearer tok' "
     ++ url]
  /\ shell_word url = url
  /\ occurrences "&" url = 3.
Proof.
  intros url. rewrite list_issues_run. repeat split; reflexivity.
Qed.

(** C6.  For the owner acme and the repository name [w;id], [get_repo]
    hands one command line to [execSync] whose last argument is the URL
    with that name; [shell_word] leaves it without quotes, so the
    semicolon stands bare on the command line. *)
Theorem get_repo_semicolon_unquoted w :
  let url := "https://api.github.com/repos/acme/w;id" in
  snd (run (handle github_config (Call_get_repo "acme" "w;id")) w)
  = ["curl -s -X GET --max-time 30 -H 'Accept: application/json' -H 'Content-Type: application/json' -H 'Authorization: Bearer tok' "
     ++ url]
  /\ shell_word url = url
  /\ occurrences ";" url = 1.
Proof.
  intros url. rewrite get_repo_run. repeat split; reflexivity.
Qed.

(** C7.  For a title that holds an apostrophe, [create_pull_request]
    without a [base] hands one command line to [execSync] whose body
    holds main as the base branch, between single quotes; the apostrophe
    of the title is not escaped, so the single quotes of the command line
    are nine and do not pair up. *)
Theorem create_pull_request_apostrophe w :
  let cmd :=
    "curl -s -X POST --max-time 30 -H 'Accept: application/json' -H 'Content-Type: application/json' -H 'Authorization: Bearer tok' -d '{"
    ++ q ++ "title" ++ q ++ ":" ++ q ++ "Don't crash" ++ q ++ ","
    ++ q ++ "head" ++ q ++ ":" ++ q ++ "dev" ++ q ++ ","
    ++ q ++ "base" ++ q ++ ":" ++ q ++ "main" ++ q
    ++ "}' https://api.github.com/repos/acme/widget/pulls" in
  snd (run (handle github_config
              (Call_create_pull_request "acme" "widget" "Don't crash" "dev"
                 None None)) w)
  = [cmd]
  /\ occurrences "'" cmd = 9.
Proof.
  intros cmd.
  destruct (create_pull_request_run github_config w "acme" "widget"
              "Don't crash" "dev" None None) as [s [-> Hs]].
  vm_compute in Hs. injection Hs as <-.
  split; reflexivity.
Qed.
